(** * The practice register of [app.py]: model and verification

    A shallow embedding of the Flask application [src/app.py]: the
    [Practice] row, its JSON rendering [to_dict], and the four handlers
    that read or write the table [pratiche]
    ([api_pratiche], [pratica_nuova], [pratica_modifica],
    [pratica_elimina]); then the configuration of the database URI, the
    password check of HTTP basic authentication ([verify_password]), and
    the users with [login], [logout] and the page [pratiche].

    Vocabulary.  The code is written in Italian; the specification uses
    English names for the same things:
      cliente = client, oggetto = subject, stato = status,
      data_apertura = opened_on, data_chiusura = closed_on, note = notes,
      NUOVA = NEW, ATTIVA = ACTIVE, CHIUSA = CLOSED.

    Modelling choices.
    - The table is a finite map from the primary key to the row.
    - The clock ([date.today()], [datetime.utcnow()]) and the logged-in
      user ([current_user]) are inputs of each handler, gathered in [env].
    - [flash] appends to a list of messages kept next to the table.
    - Text is [string], holding the UTF-8 bytes of a Python [str];
      [upper] and [strip] decode it to code points and follow [str.upper]
      and [str.strip] on all of Unicode (version 14.0, Python 3.11). *)

From Stdlib Require Import ZArith NArith Ascii Sorted.
From stdpp Require Import base tactics option list sorting strings gmap fin_maps.

Local Open Scope Z_scope.

(* ===================================================================== *)
(** ** Python strings *)
(* ===================================================================== *)

(** UTF-8, between the bytes of a [string] and the code points of the
    text.  A byte that starts no well-formed sequence decodes to U+FFFD. *)
Module Utf8.

Definition encode_char (cp : N) : list N :=
  (if cp <? 128 then [cp]
   else if cp <? 2048 then [192 + cp / 64; 128 + cp `mod` 64]
   else if cp <? 65536 then
     [224 + cp / 4096; 128 + (cp / 64) `mod` 64; 128 + cp `mod` 64]
   else
     [240 + cp / 262144; 128 + (cp / 4096) `mod` 64;
      128 + (cp / 64) `mod` 64; 128 + cp `mod` 64])%N.

Definition encode (l : list N) : string :=
  String.string_of_list_ascii (ascii_of_N <$> (l ≫= encode_char)).

(** A continuation byte, 10xxxxxx. *)
Definition continuation (b : N) : bool := ((128 <=? b) && (b <? 192))%N.

Fixpoint decode_bytes (l : list N) : list N :=
  match l with
  | [] => []
  | b1 :: r1 =>
      if (b1 <? 128)%N then b1 :: decode_bytes r1
      else
        match r1 with
        | b2 :: r2 =>
            if ((192 <=? b1) && (b1 <? 224))%N && continuation b2
            then ((b1 - 192) * 64 + (b2 - 128))%N :: decode_bytes r2
            else
              match r2 with
              | b3 :: r3 =>
                  if ((224 <=? b1) && (b1 <? 240))%N
                     && continuation b2 && continuation b3
                  then ((b1 - 224) * 4096 + (b2 - 128) * 64 + (b3 - 128))%N
                         :: decode_bytes r3
                  else
                    match r3 with
                    | b4 :: r4 =>
                        if ((240 <=? b1) && (b1 <? 248))%N && continuation b2
                           && continuation b3 && continuation b4
                        then ((b1 - 240) * 262144 + (b2 - 128) * 4096
                              + (b3 - 128) * 64 + (b4 - 128))%N
                               :: decode_bytes r4
                        else 65533%N :: decode_bytes r1
                    | [] => 65533%N :: decode_bytes r1
                    end
              | [] => 65533%N :: decode_bytes r1
              end
        | [] => 65533%N :: decode_bytes r1
        end
  end.

Definition decode (s : string) : list N :=
  decode_bytes (N_of_ascii <$> String.list_ascii_of_string s).

End Utf8.

(** The Unicode data [str.isspace] and [str.upper] consult. *)
Module Unicode.

(** The code points [c] with [chr(c).isspace()]: TAB, LF, VT, FF, CR,
    FS, GS, RS, US, space, NEL, NBSP, U+1680, U+2000 to U+200A, U+2028,
    U+2029, U+202F, U+205F, U+3000. *)
Definition WHITESPACE : list N :=
  [9; 10; 11; 12; 13; 28; 29; 30; 31; 32; 133; 160; 5760;
   8192; 8193; 8194; 8195; 8196; 8197; 8198; 8199; 8200; 8201; 8202;
   8232; 8233; 8239; 8287; 12288]%N.

(** [chr(c).upper()] for every code point [c] above 127 that it changes,
    as the code points of the result (one to three). *)
Definition UPPER : list (N * list N) :=
  [(181, [924]); (223, [83; 83]); (224, [192]); (225, [193]); (226, [194]);
   (227, [195]); (228, [196]); (229, [197]); (230, [198]); (231, [199]);
   (232, [200]); (233, [201]); (234, [202]); (235, [203]); (236, [204]);
   (237, [205]); (238, [206]); (239, [207]); (240, [208]); (241, [209]);
   (242, [210]); (243, [211]); (244, [212]); (245, [213]); (246, [214]);
   (248, [216]); (249, [217]); (250, [218]); (251, [219]); (252, [220]);
   (253, [221]); (254, [222]); (255, [376]); (257, [256]); (259, [258]);
   (261, [260]); (263, [262]); (265, [264]); (267, [266]); (269, [268]);
   (271, [270]); (273, [272]); (275, [274]); (277, [276]); (279, [278]);
   (281, [280]); (283, [282]); (285, [284]); (287, [286]); (289, [288]);
   (291, [290]); (293, [292]); (295, [294]); (297, [296]); (299, [298]);
   (301, [300]); (303, [302]); (305, [73]); (307, [306]); (309, [308]);
   (311, [310]); (314, [313]); (316, [315]); (318, [317]); (320, [319]);
   (322, [321]); (324, [323]); (326, [325]); (328, [327]); (329, [700; 78]);
   (331, [330]); (333, [332]); (335, [334]); (337, [336]); (339, [338]);
   (341, [340]); (343, [342]); (345, [344]); (347, [346]); (349, [348]);
   (351, [350]); (353, [352]); (355, [354]); (357, [356]); (359, [358]);
   (361, [360]); (363, [362]); (365, [364]); (367, [366]); (369, [368]);
   (371, [370]); (373, [372]); (375, [374]); (378, [377]); (380, [379]);
   (382, [381]); (383, [83]); (384, [579]); (387, [386]); (389, [388]);
   (392, [391]); (396, [395]); (402, [401]); (405, [502]); (409, [408]);
   (410, [573]); (414, [544]); (417, [416]); (419, [418]); (421, [420]);
   (424, [423]); (429, [428]); (432, [431]); (436, [435]); (438, [437]);
   (441, [440]); (445, [444]); (447, [503]); (453, [452]); (454, [452]);
   (456, [455]); (457, [455]); (459, [458]); (460, [458]); (462, [461]);
   (464, [463]); (466, [465]); (468, [467]); (470, [469]); (472, [471]);
   (474, [473]); (476, [475]); (477, [398]); (479, [478]); (481, [480]);
   (483, [482]); (485, [484]); (487, [486]); (489, [488]); (491, [490]);
   (493, [492]); (495, [494]); (496, [74; 780]); (498, [497]); (499, [497]);
   (501, [500]); (505, [504]); (507, [506]); (509, [508]); (511, [510]);
   (513, [512]); (515, [514]); (517, [516]); (519, [518]); (521, [520]);
   (523, [522]); (525, [524]); (527, [526]); (529, [528]); (531, [530]);
   (533, [532]); (535, [534]); (537, [536]); (539, [538]); (541, [540]);
   (543, [542]); (547, [546]); (549, [548]); (551, [550]); (553, [552]);
   (555, [554]); (557, [556]); (559, [558]); (561, [560]); (563, [562]);
   (572, [571]); (575, [11390]); (576, [11391]); (578, [577]); (583, [582]);
   (585, [584]); (587, [586]); (589, [588]); (591, [590]); (592, [11375]);
   (593, [11373]); (594, [11376]); (595, [385]); (596, [390]); (598, [393]);
   (599, [394]); (601, [399]); (603, [400]); (604, [42923]); (608, [403]);
   (609, [42924]); (611, [404]); (613, [42893]); (614, [42922]);
   (616, [407]); (617, [406]); (618, [42926]); (619, [11362]);
   (620, [42925]); (623, [412]); (625, [11374]); (626, [413]); (629, [415]);
   (637, [11364]); (640, [422]); (642, [42949]); (643, [425]);
   (647, [42929]); (648, [430]); (649, [580]); (650, [433]); (651, [434]);
   (652, [581]); (658, [439]); (669, [42930]); (670, [42928]); (837, [921]);
   (881, [880]); (883, [882]); (887, [886]); (891, [1021]); (892, [1022]);
   (893, [1023]); (912, [921; 776; 769]); (940, [902]); (941, [904]);
   (942, [905]); (943, [906]); (944, [933; 776; 769]); (945, [913]);
   (946, [914]); (947, [915]); (948, [916]); (949, [917]); (950, [918]);
   (951, [919]); (952, [920]); (953, [921]); (954, [922]); (955, [923]);
   (956, [924]); (957, [925]); (958, [926]); (959, [927]); (960, [928]);
   (961, [929]); (962, [931]); (963, [931]); (964, [932]); (965, [933]);
   (966, [934]); (967, [935]); (968, [936]); (969, [937]); (970, [938]);
   (971, [939]); (972, [908]); (973, [910]); (974, [911]); (976, [914]);
   (977, [920]); (981, [934]); (982, [928]); (983, [975]); (985, [984]);
   (987, [986]); (989, [988]); (991, [990]); (993, [992]); (995, [994]);
   (997, [996]); (999, [998]); (1001, [1000]); (1003, [1002]);
   (1005, [1004]); (1007, [1006]); (1008, [922]); (1009, [929]);
   (1010, [1017]); (1011, [895]); (1013, [917]); (1016, [1015]);
   (1019, [1018]); (1072, [1040]); (1073, [1041]); (1074, [1042]);
   (1075, [1043]); (1076, [1044]); (1077, [1045]); (1078, [1046]);
   (1079, [1047]); (1080, [1048]); (1081, [1049]); (1082, [1050]);
   (1083, [1051]); (1084, [1052]); (1085, [1053]); (1086, [1054]);
   (1087, [1055]); (1088, [1056]); (1089, [1057]); (1090, [1058]);
   (1091, [1059]); (1092, [1060]); (1093, [1061]); (1094, [1062]);
   (1095, [1063]); (1096, [1064]); (1097, [1065]); (1098, [1066]);
   (1099, [1067]); (1100, [1068]); (1101, [1069]); (1102, [1070]);
   (1103, [1071]); (1104, [1024]); (1105, [1025]); (1106, [1026]);
   (1107, [1027]); (1108, [1028]); (1109, [1029]); (1110, [1030]);
   (1111, [1031]); (1112, [1032]); (1113, [1033]); (1114, [1034]);
   (1115, [1035]); (1116, [1036]); (1117, [1037]); (1118, [1038]);
   (1119, [1039]); (1121, [1120]); (1123, [1122]); (1125, [1124]);
   (1127, [1126]); (1129, [1128]); (1131, [1130]); (1133, [1132]);
   (1135, [1134]); (1137, [1136]); (1139, [1138]); (1141, [1140]);
   (1143, [1142]); (1145, [1144]); (1147, [1146]); (1149, [1148]);
   (1151, [1150]); (1153, [1152]); (1163, [1162]); (1165, [1164]);
   (1167, [1166]); (1169, [1168]); (1171, [1170]); (1173, [1172]);
   (1175, [1174]); (1177, [1176]); (1179, [1178]); (1181, [1180]);
   (1183, [1182]); (1185, [1184]); (1187, [1186]); (1189, [1188]);
   (1191, [1190]); (1193, [1192]); (1195, [1194]); (1197, [1196]);
   (1199, [1198]); (1201, [1200]); (1203, [1202]); (1205, [1204]);
   (1207, [1206]); (1209, [1208]); (1211, [1210]); (1213, [1212]);
   (1215, [1214]); (1218, [1217]); (1220, [1219]); (1222, [1221]);
   (1224, [1223]); (1226, [1225]); (1228, [1227]); (1230, [1229]);
   (1231, [1216]); (1233, [1232]); (1235, [1234]); (1237, [1236]);
   (1239, [1238]); (1241, [1240]); (1243, [1242]); (1245, [1244]);
   (1247, [1246]); (1249, [1248]); (1251, [1250]); (1253, [1252]);
   (1255, [1254]); (1257, [1256]); (1259, [1258]); (1261, [1260]);
   (1263, [1262]); (1265, [1264]); (1267, [1266]); (1269, [1268]);
   (1271, [1270]); (1273, [1272]); (1275, [1274]); (1277, [1276]);
   (1279, [1278]); (1281, [1280]); (1283, [1282]); (1285, [1284]);
   (1287, [1286]); (1289, [1288]); (1291, [1290]); (1293, [1292]);
   (1295, [1294]); (1297, [1296]); (1299, [1298]); (1301, [1300]);
   (1303, [1302]); (1305, [1304]); (1307, [1306]); (1309, [1308]);
   (1311, [1310]); (1313, [1312]); (1315, [1314]); (1317, [1316]);
   (1319, [1318]); (1321, [1320]); (1323, [1322]); (1325, [1324]);
   (1327, [1326]); (1377, [1329]); (1378, [1330]); (1379, [1331]);
   (1380, [1332]); (1381, [1333]); (1382, [1334]); (1383, [1335]);
   (1384, [1336]); (1385, [1337]); (1386, [1338]); (1387, [1339]);
   (1388, [1340]); (1389, [1341]); (1390, [1342]); (1391, [1343]);
   (1392, [1344]); (1393, [1345]); (1394, [1346]); (1395, [1347]);
   (1396, [1348]); (1397, [1349]); (1398, [1350]); (1399, [1351]);
   (1400, [1352]); (1401, [1353]); (1402, [1354]); (1403, [1355]);
   (1404, [1356]); (1405, [1357]); (1406, [1358]); (1407, [1359]);
   (1408, [1360]); (1409, [1361]); (1410, [1362]); (1411, [1363]);
   (1412, [1364]); (1413, [1365]); (1414, [1366]); (1415, [1333; 1362]);
   (4304, [7312]); (4305, [7313]); (4306, [7314]); (4307, [7315]);
   (4308, [7316]); (4309, [7317]); (4310, [7318]); (4311, [7319]);
   (4312, [7320]); (4313, [7321]); (4314, [7322]); (4315, [7323]);
   (4316, [7324]); (4317, [7325]); (4318, [7326]); (4319, [7327]);
   (4320, [7328]); (4321, [7329]); (4322, [7330]); (4323, [7331]);
   (4324, [7332]); (4325, [7333]); (4326, [7334]); (4327, [7335]);
   (4328, [7336]); (4329, [7337]); (4330, [7338]); (4331, [7339]);
   (4332, [7340]); (4333, [7341]); (4334, [7342]); (4335, [7343]);
   (4336, [7344]); (4337, [7345]); (4338, [7346]); (4339, [7347]);
   (4340, [7348]); (4341, [7349]); (4342, [7350]); (4343, [7351]);
   (4344, [7352]); (4345, [7353]); (4346, [7354]); (4349, [7357]);
   (4350, [7358]); (4351, [7359]); (5112, [5104]); (5113, [5105]);
   (5114, [5106]); (5115, [5107]); (5116, [5108]); (5117, [5109]);
   (7296, [1042]); (7297, [1044]); (7298, [1054]); (7299, [1057]);
   (7300, [1058]); (7301, [1058]); (7302, [1066]); (7303, [1122]);
   (7304, [42570]); (7545, [42877]); (7549, [11363]); (7566, [42950]);
   (7681, [7680]); (7683, [7682]); (7685, [7684]); (7687, [7686]);
   (7689, [7688]); (7691, [7690]); (7693, [7692]); (7695, [7694]);
   (7697, [7696]); (7699, [7698]); (7701, [7700]); (7703, [7702]);
   (7705, [7704]); (7707, [7706]); (7709, [7708]); (7711, [7710]);
   (7713, [7712]); (7715, [7714]); (7717, [7716]); (7719, [7718]);
   (7721, [7720]); (7723, [7722]); (7725, [7724]); (7727, [7726]);
   (7729, [7728]); (7731, [7730]); (7733, [7732]); (7735, [7734]);
   (7737, [7736]); (7739, [7738]); (7741, [7740]); (7743, [7742]);
   (7745, [7744]); (7747, [7746]); (7749, [7748]); (7751, [7750]);
   (7753, [7752]); (7755, [7754]); (7757, [7756]); (7759, [7758]);
   (7761, [7760]); (7763, [7762]); (7765, [7764]); (7767, [7766]);
   (7769, [7768]); (7771, [7770]); (7773, [7772]); (7775, [7774]);
   (7777, [7776]); (7779, [7778]); (7781, [7780]); (7783, [7782]);
   (7785, [7784]); (7787, [7786]); (7789, [7788]); (7791, [7790]);
   (7793, [7792]); (7795, [7794]); (7797, [7796]); (7799, [7798]);
   (7801, [7800]); (7803, [7802]); (7805, [7804]); (7807, [7806]);
   (7809, [7808]); (7811, [7810]); (7813, [7812]); (7815, [7814]);
   (7817, [7816]); (7819, [7818]); (7821, [7820]); (7823, [7822]);
   (7825, [7824]); (7827, [7826]); (7829, [7828]); (7830, [72; 817]);
   (7831, [84; 776]); (7832, [87; 778]); (7833, [89; 778]);
   (7834, [65; 702]); (7835, [7776]); (7841, [7840]); (7843, [7842]);
   (7845, [7844]); (7847, [7846]); (7849, [7848]); (7851, [7850]);
   (7853, [7852]); (7855, [7854]); (7857, [7856]); (7859, [7858]);
   (7861, [7860]); (7863, [7862]); (7865, [7864]); (7867, [7866]);
   (7869, [7868]); (7871, [7870]); (7873, [7872]); (7875, [7874]);
   (7877, [7876]); (7879, [7878]); (7881, [7880]); (7883, [7882]);
   (7885, [7884]); (7887, [7886]); (7889, [7888]); (7891, [7890]);
   (7893, [7892]); (7895, [7894]); (7897, [7896]); (7899, [7898]);
   (7901, [7900]); (7903, [7902]); (7905, [7904]); (7907, [7906]);
   (7909, [7908]); (7911, [7910]); (7913, [7912]); (7915, [7914]);
   (7917, [7916]); (7919, [7918]); (7921, [7920]); (7923, [7922]);
   (7925, [7924]); (7927, [7926]); (7929, [7928]); (7931, [7930]);
   (7933, [7932]); (7935, [7934]); (7936, [7944]); (7937, [7945]);
   (7938, [7946]); (7939, [7947]); (7940, [7948]); (7941, [7949]);
   (7942, [7950]); (7943, [7951]); (7952, [7960]); (7953, [7961]);
   (7954, [7962]); (7955, [7963]); (7956, [7964]); (7957, [7965]);
   (7968, [7976]); (7969, [7977]); (7970, [7978]); (7971, [7979]);
   (7972, [7980]); (7973, [7981]); (7974, [7982]); (7975, [7983]);
   (7984, [7992]); (7985, [7993]); (7986, [7994]); (7987, [7995]);
   (7988, [7996]); (7989, [7997]); (7990, [7998]); (7991, [7999]);
   (8000, [8008]); (8001, [8009]); (8002, [8010]); (8003, [8011]);
   (8004, [8012]); (8005, [8013]); (8016, [933; 787]); (8017, [8025]);
   (8018, [933; 787; 768]); (8019, [8027]); (8020, [933; 787; 769]);
   (8021, [8029]); (8022, [933; 787; 834]); (8023, [8031]); (8032, [8040]);
   (8033, [8041]); (8034, [8042]); (8035, [8043]); (8036, [8044]);
   (8037, [8045]); (8038, [8046]); (8039, [8047]); (8048, [8122]);
   (8049, [8123]); (8050, [8136]); (8051, [8137]); (8052, [8138]);
   (8053, [8139]); (8054, [8154]); (8055, [8155]); (8056, [8184]);
   (8057, [8185]); (8058, [8170]); (8059, [8171]); (8060, [8186]);
   (8061, [8187]); (8064, [7944; 921]); (8065, [7945; 921]);
   (8066, [7946; 921]); (8067, [7947; 921]); (8068, [7948; 921]);
   (8069, [7949; 921]); (8070, [7950; 921]); (8071, [7951; 921]);
   (8072, [7944; 921]); (8073, [7945; 921]); (8074, [7946; 921]);
   (8075, [7947; 921]); (8076, [7948; 921]); (8077, [7949; 921]);
   (8078, [7950; 921]); (8079, [7951; 921]); (8080, [7976; 921]);
   (8081, [7977; 921]); (8082, [7978; 921]); (8083, [7979; 921]);
   (8084, [7980; 921]); (8085, [7981; 921]); (8086, [7982; 921]);
   (8087, [7983; 921]); (8088, [7976; 921]); (8089, [7977; 921]);
   (8090, [7978; 921]); (8091, [7979; 921]); (8092, [7980; 921]);
   (8093, [7981; 921]); (8094, [7982; 921]); (8095, [7983; 921]);
   (8096, [8040; 921]); (8097, [8041; 921]); (8098, [8042; 921]);
   (8099, [8043; 921]); (8100, [8044; 921]); (8101, [8045; 921]);
   (8102, [8046; 921]); (8103, [8047; 921]); (8104, [8040; 921]);
   (8105, [8041; 921]); (8106, [8042; 921]); (8107, [8043; 921]);
   (8108, [8044; 921]); (8109, [8045; 921]); (8110, [8046; 921]);
   (8111, [8047; 921]); (8112, [8120]); (8113, [8121]); (8114, [8122; 921]);
   (8115, [913; 921]); (8116, [902; 921]); (8118, [913; 834]);
   (8119, [913; 834; 921]); (8124, [913; 921]); (8126, [921]);
   (8130, [8138; 921]); (8131, [919; 921]); (8132, [905; 921]);
   (8134, [919; 834]); (8135, [919; 834; 921]); (8140, [919; 921]);
   (8144, [8152]); (8145, [8153]); (8146, [921; 776; 768]);
   (8147, [921; 776; 769]); (8150, [921; 834]); (8151, [921; 776; 834]);
   (8160, [8168]); (8161, [8169]); (8162, [933; 776; 768]);
   (8163, [933; 776; 769]); (8164, [929; 787]); (8165, [8172]);
   (8166, [933; 834]); (8167, [933; 776; 834]); (8178, [8186; 921]);
   (8179, [937; 921]); (8180, [911; 921]); (8182, [937; 834]);
   (8183, [937; 834; 921]); (8188, [937; 921]); (8526, [8498]);
   (8560, [8544]); (8561, [8545]); (8562, [8546]); (8563, [8547]);
   (8564, [8548]); (8565, [8549]); (8566, [8550]); (8567, [8551]);
   (8568, [8552]); (8569, [8553]); (8570, [8554]); (8571, [8555]);
   (8572, [8556]); (8573, [8557]); (8574, [8558]); (8575, [8559]);
   (8580, [8579]); (9424, [9398]); (9425, [9399]); (9426, [9400]);
   (9427, [9401]); (9428, [9402]); (9429, [9403]); (9430, [9404]);
   (9431, [9405]); (9432, [9406]); (9433, [9407]); (9434, [9408]);
   (9435, [9409]); (9436, [9410]); (9437, [9411]); (9438, [9412]);
   (9439, [9413]); (9440, [9414]); (9441, [9415]); (9442, [9416]);
   (9443, [9417]); (9444, [9418]); (9445, [9419]); (9446, [9420]);
   (9447, [9421]); (9448, [9422]); (9449, [9423]); (11312, [11264]);
   (11313, [11265]); (11314, [11266]); (11315, [11267]); (11316, [11268]);
   (11317, [11269]); (11318, [11270]); (11319, [11271]); (11320, [11272]);
   (11321, [11273]); (11322, [11274]); (11323, [11275]); (11324, [11276]);
   (11325, [11277]); (11326, [11278]); (11327, [11279]); (11328, [11280]);
   (11329, [11281]); (11330, [11282]); (11331, [11283]); (11332, [11284]);
   (11333, [11285]); (11334, [11286]); (11335, [11287]); (11336, [11288]);
   (11337, [11289]); (11338, [11290]); (11339, [11291]); (11340, [11292]);
   (11341, [11293]); (11342, [11294]); (11343, [11295]); (11344, [11296]);
   (11345, [11297]); (11346, [11298]); (11347, [11299]); (11348, [11300]);
   (11349, [11301]); (11350, [11302]); (11351, [11303]); (11352, [11304]);
   (11353, [11305]); (11354, [11306]); (11355, [11307]); (11356, [11308]);
   (11357, [11309]); (11358, [11310]); (11359, [11311]); (11361, [11360]);
   (11365, [570]); (11366, [574]); (11368, [11367]); (11370, [11369]);
   (11372, [11371]); (11379, [11378]); (11382, [11381]); (11393, [11392]);
   (11395, [11394]); (11397, [11396]); (11399, [11398]); (11401, [11400]);
   (11403, [11402]); (11405, [11404]); (11407, [11406]); (11409, [11408]);
   (11411, [11410]); (11413, [11412]); (11415, [11414]); (11417, [11416]);
   (11419, [11418]); (11421, [11420]); (11423, [11422]); (11425, [11424]);
   (11427, [11426]); (11429, [11428]); (11431, [11430]); (11433, [11432]);
   (11435, [11434]); (11437, [11436]); (11439, [11438]); (11441, [11440]);
   (11443, [11442]); (11445, [11444]); (11447, [11446]); (11449, [11448]);
   (11451, [11450]); (11453, [11452]); (11455, [11454]); (11457, [11456]);
   (11459, [11458]); (11461, [11460]); (11463, [11462]); (11465, [11464]);
   (11467, [11466]); (11469, [11468]); (11471, [11470]); (11473, [11472]);
   (11475, [11474]); (11477, [11476]); (11479, [11478]); (11481, [11480]);
   (11483, [11482]); (11485, [11484]); (11487, [11486]); (11489, [11488]);
   (11491, [11490]); (11500, [11499]); (11502, [11501]); (11507, [11506]);
   (11520, [4256]); (11521, [4257]); (11522, [4258]); (11523, [4259]);
   (11524, [4260]); (11525, [4261]); (11526, [4262]); (11527, [4263]);
   (11528, [4264]); (11529, [4265]); (11530, [4266]); (11531, [4267]);
   (11532, [4268]); (11533, [4269]); (11534, [4270]); (11535, [4271]);
   (11536, [4272]); (11537, [4273]); (11538, [4274]); (11539, [4275]);
   (11540, [4276]); (11541, [4277]); (11542, [4278]); (11543, [4279]);
   (11544, [4280]); (11545, [4281]); (11546, [4282]); (11547, [4283]);
   (11548, [4284]); (11549, [4285]); (11550, [4286]); (11551, [4287]);
   (11552, [4288]); (11553, [4289]); (11554, [4290]); (11555, [4291]);
   (11556, [4292]); (11557, [4293]); (11559, [4295]); (11565, [4301]);
   (42561, [42560]); (42563, [42562]); (42565, [42564]); (42567, [42566]);
   (42569, [42568]); (42571, [42570]); (42573, [42572]); (42575, [42574]);
   (42577, [42576]); (42579, [42578]); (42581, [42580]); (42583, [42582]);
   (42585, [42584]); (42587, [42586]); (42589, [42588]); (42591, [42590]);
   (42593, [42592]); (42595, [42594]); (42597, [42596]); (42599, [42598]);
   (42601, [42600]); (42603, [42602]); (42605, [42604]); (42625, [42624]);
   (42627, [42626]); (42629, [42628]); (42631, [42630]); (42633, [42632]);
   (42635, [42634]); (42637, [42636]); (42639, [42638]); (42641, [42640]);
   (42643, [42642]); (42645, [42644]); (42647, [42646]); (42649, [42648]);
   (42651, [42650]); (42787, [42786]); (42789, [42788]); (42791, [42790]);
   (42793, [42792]); (42795, [42794]); (42797, [42796]); (42799, [42798]);
   (42803, [42802]); (42805, [42804]); (42807, [42806]); (42809, [42808]);
   (42811, [42810]); (42813, [42812]); (42815, [42814]); (42817, [42816]);
   (42819, [42818]); (42821, [42820]); (42823, [42822]); (42825, [42824]);
   (42827, [42826]); (42829, [42828]); (42831, [42830]); (42833, [42832]);
   (42835, [42834]); (42837, [42836]); (42839, [42838]); (42841, [42840]);
   (42843, [42842]); (42845, [42844]); (42847, [42846]); (42849, [42848]);
   (42851, [42850]); (42853, [42852]); (42855, [42854]); (42857, [42856]);
   (42859, [42858]); (42861, [42860]); (42863, [42862]); (42874, [42873]);
   (42876, [42875]); (42879, [42878]); (42881, [42880]); (42883, [42882]);
   (42885, [42884]); (42887, [42886]); (42892, [42891]); (42897, [42896]);
   (42899, [42898]); (42900, [42948]); (42903, [42902]); (42905, [42904]);
   (42907, [42906]); (42909, [42908]); (42911, [42910]); (42913, [42912]);
   (42915, [42914]); (42917, [42916]); (42919, [42918]); (42921, [42920]);
   (42933, [42932]); (42935, [42934]); (42937, [42936]); (42939, [42938]);
   (42941, [42940]); (42943, [42942]); (42945, [42944]); (42947, [42946]);
   (42952, [42951]); (42954, [42953]); (42961, [42960]); (42967, [42966]);
   (42969, [42968]); (42998, [42997]); (43859, [42931]); (43888, [5024]);
   (43889, [5025]); (43890, [5026]); (43891, [5027]); (43892, [5028]);
   (43893, [5029]); (43894, [5030]); (43895, [5031]); (43896, [5032]);
   (43897, [5033]); (43898, [5034]); (43899, [5035]); (43900, [5036]);
   (43901, [5037]); (43902, [5038]); (43903, [5039]); (43904, [5040]);
   (43905, [5041]); (43906, [5042]); (43907, [5043]); (43908, [5044]);
   (43909, [5045]); (43910, [5046]); (43911, [5047]); (43912, [5048]);
   (43913, [5049]); (43914, [5050]); (43915, [5051]); (43916, [5052]);
   (43917, [5053]); (43918, [5054]); (43919, [5055]); (43920, [5056]);
   (43921, [5057]); (43922, [5058]); (43923, [5059]); (43924, [5060]);
   (43925, [5061]); (43926, [5062]); (43927, [5063]); (43928, [5064]);
   (43929, [5065]); (43930, [5066]); (43931, [5067]); (43932, [5068]);
   (43933, [5069]); (43934, [5070]); (43935, [5071]); (43936, [5072]);
   (43937, [5073]); (43938, [5074]); (43939, [5075]); (43940, [5076]);
   (43941, [5077]); (43942, [5078]); (43943, [5079]); (43944, [5080]);
   (43945, [5081]); (43946, [5082]); (43947, [5083]); (43948, [5084]);
   (43949, [5085]); (43950, [5086]); (43951, [5087]); (43952, [5088]);
   (43953, [5089]); (43954, [5090]); (43955, [5091]); (43956, [5092]);
   (43957, [5093]); (43958, [5094]); (43959, [5095]); (43960, [5096]);
   (43961, [5097]); (43962, [5098]); (43963, [5099]); (43964, [5100]);
   (43965, [5101]); (43966, [5102]); (43967, [5103]); (64256, [70; 70]);
   (64257, [70; 73]); (64258, [70; 76]); (64259, [70; 70; 73]);
   (64260, [70; 70; 76]); (64261, [83; 84]); (64262, [83; 84]);
   (64275, [1348; 1350]); (64276, [1348; 1333]); (64277, [1348; 1339]);
   (64278, [1358; 1350]); (64279, [1348; 1341]); (65345, [65313]);
   (65346, [65314]); (65347, [65315]); (65348, [65316]); (65349, [65317]);
   (65350, [65318]); (65351, [65319]); (65352, [65320]); (65353, [65321]);
   (65354, [65322]); (65355, [65323]); (65356, [65324]); (65357, [65325]);
   (65358, [65326]); (65359, [65327]); (65360, [65328]); (65361, [65329]);
   (65362, [65330]); (65363, [65331]); (65364, [65332]); (65365, [65333]);
   (65366, [65334]); (65367, [65335]); (65368, [65336]); (65369, [65337]);
   (65370, [65338]); (66600, [66560]); (66601, [66561]); (66602, [66562]);
   (66603, [66563]); (66604, [66564]); (66605, [66565]); (66606, [66566]);
   (66607, [66567]); (66608, [66568]); (66609, [66569]); (66610, [66570]);
   (66611, [66571]); (66612, [66572]); (66613, [66573]); (66614, [66574]);
   (66615, [66575]); (66616, [66576]); (66617, [66577]); (66618, [66578]);
   (66619, [66579]); (66620, [66580]); (66621, [66581]); (66622, [66582]);
   (66623, [66583]); (66624, [66584]); (66625, [66585]); (66626, [66586]);
   (66627, [66587]); (66628, [66588]); (66629, [66589]); (66630, [66590]);
   (66631, [66591]); (66632, [66592]); (66633, [66593]); (66634, [66594]);
   (66635, [66595]); (66636, [66596]); (66637, [66597]); (66638, [66598]);
   (66639, [66599]); (66776, [66736]); (66777, [66737]); (66778, [66738]);
   (66779, [66739]); (66780, [66740]); (66781, [66741]); (66782, [66742]);
   (66783, [66743]); (66784, [66744]); (66785, [66745]); (66786, [66746]);
   (66787, [66747]); (66788, [66748]); (66789, [66749]); (66790, [66750]);
   (66791, [66751]); (66792, [66752]); (66793, [66753]); (66794, [66754]);
   (66795, [66755]); (66796, [66756]); (66797, [66757]); (66798, [66758]);
   (66799, [66759]); (66800, [66760]); (66801, [66761]); (66802, [66762]);
   (66803, [66763]); (66804, [66764]); (66805, [66765]); (66806, [66766]);
   (66807, [66767]); (66808, [66768]); (66809, [66769]); (66810, [66770]);
   (66811, [66771]); (66967, [66928]); (66968, [66929]); (66969, [66930]);
   (66970, [66931]); (66971, [66932]); (66972, [66933]); (66973, [66934]);
   (66974, [66935]); (66975, [66936]); (66976, [66937]); (66977, [66938]);
   (66979, [66940]); (66980, [66941]); (66981, [66942]); (66982, [66943]);
   (66983, [66944]); (66984, [66945]); (66985, [66946]); (66986, [66947]);
   (66987, [66948]); (66988, [66949]); (66989, [66950]); (66990, [66951]);
   (66991, [66952]); (66992, [66953]); (66993, [66954]); (66995, [66956]);
   (66996, [66957]); (66997, [66958]); (66998, [66959]); (66999, [66960]);
   (67000, [66961]); (67001, [66962]); (67003, [66964]); (67004, [66965]);
   (68800, [68736]); (68801, [68737]); (68802, [68738]); (68803, [68739]);
   (68804, [68740]); (68805, [68741]); (68806, [68742]); (68807, [68743]);
   (68808, [68744]); (68809, [68745]); (68810, [68746]); (68811, [68747]);
   (68812, [68748]); (68813, [68749]); (68814, [68750]); (68815, [68751]);
   (68816, [68752]); (68817, [68753]); (68818, [68754]); (68819, [68755]);
   (68820, [68756]); (68821, [68757]); (68822, [68758]); (68823, [68759]);
   (68824, [68760]); (68825, [68761]); (68826, [68762]); (68827, [68763]);
   (68828, [68764]); (68829, [68765]); (68830, [68766]); (68831, [68767]);
   (68832, [68768]); (68833, [68769]); (68834, [68770]); (68835, [68771]);
   (68836, [68772]); (68837, [68773]); (68838, [68774]); (68839, [68775]);
   (68840, [68776]); (68841, [68777]); (68842, [68778]); (68843, [68779]);
   (68844, [68780]); (68845, [68781]); (68846, [68782]); (68847, [68783]);
   (68848, [68784]); (68849, [68785]); (68850, [68786]); (71872, [71840]);
   (71873, [71841]); (71874, [71842]); (71875, [71843]); (71876, [71844]);
   (71877, [71845]); (71878, [71846]); (71879, [71847]); (71880, [71848]);
   (71881, [71849]); (71882, [71850]); (71883, [71851]); (71884, [71852]);
   (71885, [71853]); (71886, [71854]); (71887, [71855]); (71888, [71856]);
   (71889, [71857]); (71890, [71858]); (71891, [71859]); (71892, [71860]);
   (71893, [71861]); (71894, [71862]); (71895, [71863]); (71896, [71864]);
   (71897, [71865]); (71898, [71866]); (71899, [71867]); (71900, [71868]);
   (71901, [71869]); (71902, [71870]); (71903, [71871]); (93792, [93760]);
   (93793, [93761]); (93794, [93762]); (93795, [93763]); (93796, [93764]);
   (93797, [93765]); (93798, [93766]); (93799, [93767]); (93800, [93768]);
   (93801, [93769]); (93802, [93770]); (93803, [93771]); (93804, [93772]);
   (93805, [93773]); (93806, [93774]); (93807, [93775]); (93808, [93776]);
   (93809, [93777]); (93810, [93778]); (93811, [93779]); (93812, [93780]);
   (93813, [93781]); (93814, [93782]); (93815, [93783]); (93816, [93784]);
   (93817, [93785]); (93818, [93786]); (93819, [93787]); (93820, [93788]);
   (93821, [93789]); (93822, [93790]); (93823, [93791]); (125218, [125184]);
   (125219, [125185]); (125220, [125186]); (125221, [125187]);
   (125222, [125188]); (125223, [125189]); (125224, [125190]);
   (125225, [125191]); (125226, [125192]); (125227, [125193]);
   (125228, [125194]); (125229, [125195]); (125230, [125196]);
   (125231, [125197]); (125232, [125198]); (125233, [125199]);
   (125234, [125200]); (125235, [125201]); (125236, [125202]);
   (125237, [125203]); (125238, [125204]); (125239, [125205]);
   (125240, [125206]); (125241, [125207]); (125242, [125208]);
   (125243, [125209]); (125244, [125210]); (125245, [125211]);
   (125246, [125212]); (125247, [125213]); (125248, [125214]);
   (125249, [125215]); (125250, [125216]); (125251, [125217])]%N.

Fixpoint lookup (c : N) (table : list (N * list N)) : option (list N) :=
  match table with
  | [] => None
  | (c', u) :: table' => if (c' =? c)%N then Some u else lookup c table'
  end.

End Unicode.

Module Py.

(** [chr(c).upper()]: a-z go to A-Z, the rest of ASCII is kept, and above
    ASCII the table decides. *)
Definition upper_char (c : N) : list N :=
  if ((97 <=? c) && (c <=? 122))%N then [(c - 32)%N]
  else if (c <? 128)%N then [c]
  else default [c] (Unicode.lookup c Unicode.UPPER).

(** [s.upper()]: character by character. *)
Definition upper (s : string) : string :=
  Utf8.encode (Utf8.decode s ≫= upper_char).

(** [chr(c).isspace()] *)
Definition isspace (c : N) : bool := bool_decide (c ∈ Unicode.WHITESPACE).

(** White space taken off the start, and off the end, of the characters
    of a text. *)
Fixpoint lstrip_chars (l : list N) : list N :=
  match l with
  | [] => []
  | c :: l' => if isspace c then lstrip_chars l' else l
  end.

Definition rstrip_chars (l : list N) : list N :=
  reverse (lstrip_chars (reverse l)).

(** [s.strip()] *)
Definition strip (s : string) : string :=
  Utf8.encode (rstrip_chars (lstrip_chars (Utf8.decode s))).

Global Arguments upper : simpl never.
Global Arguments strip : simpl never.

(** Truth value of a string: [bool(s)]. *)
Definition truthy (s : string) : bool :=
  match s with EmptyString => false | String _ _ => true end.

(** [x or d] where [x] is [None] or a string and [d] a string. *)
Definition or_else (x : option string) (d : string) : string :=
  match x with
  | Some s => if truthy s then s else d
  | None => d
  end.

(** [x or ""] where the result may stay a string only. *)
Definition or_empty (x : option string) : string := or_else x "".

(** A werkzeug [MultiDict] as the list of its (key, value) pairs in
    arrival order; [d.get(k)] is the first value of [k], or [None]. *)
Fixpoint get (k : string) (d : list (string * string)) : option string :=
  match d with
  | [] => None
  | (k', v) :: d' => if decide (k' = k) then Some v else get k d'
  end.

(** [d.get(k, default)] *)
Definition get_default (k : string) (d : list (string * string))
    (default : string) : string :=
  match get k d with Some v => v | None => default end.

(** Two characters that are equal, or the same letter of A-Z in upper and
    in lower case.  This is written out on the code points and does not
    go through [upper_char]. *)
Definition same_letter (a b : N) : bool :=
  ((a =? b)
   || ((65 <=? a) && (a <=? 90) && (b =? a + 32))
   || ((97 <=? a) && (a <=? 122) && (b =? a - 32)))%N.

Fixpoint same_letters (l m : list N) : bool :=
  match l, m with
  | [], [] => true
  | a :: l', b :: m' => same_letter a b && same_letters l' m'
  | _, _ => false
  end.

(** Two texts that differ only in the case of the letters A-Z. *)
Definition same_ignoring_case (s t : string) : bool :=
  same_letters (Utf8.decode s) (Utf8.decode t).

End Py.

(* ===================================================================== *)
(** ** Dates and times *)
(* ===================================================================== *)

(** A [datetime.date]. *)
Record date := Date { year : N; month : N; day : N }.

(** A naive [datetime.datetime] (what [datetime.utcnow()] returns). *)
Record datetime := DateTime {
  dt_date : date;
  hour : N; minute : N; second : N; microsecond : N
}.

Global Instance date_eq_dec : EqDecision date.
Proof. solve_decision. Defined.
Global Instance datetime_eq_dec : EqDecision datetime.
Proof. solve_decision. Defined.

Module Iso.

Definition digit (n : N) : ascii := ascii_of_N (48 + n mod 10).

(** ["%02d" % n] for [n < 100] *)
Definition pad2 (n : N) : list ascii :=
  [digit (n / 10); digit n]%N.

(** ["%04d" % n] for [n < 10000] *)
Definition pad4 (n : N) : list ascii :=
  [digit (n / 1000); digit (n / 100); digit (n / 10); digit n]%N.

(** ["%06d" % n] for [n < 1000000] *)
Definition pad6 (n : N) : list ascii :=
  [digit (n / 100000); digit (n / 10000); digit (n / 1000);
   digit (n / 100); digit (n / 10); digit n]%N.

Definition date_chars (d : date) : list ascii :=
  pad4 (year d) ++ ["-"%char] ++ pad2 (month d) ++ ["-"%char] ++ pad2 (day d).

(** [date.isoformat()]: YYYY-MM-DD *)
Definition date_isoformat (d : date) : string :=
  String.string_of_list_ascii (date_chars d).

Definition time_chars (t : datetime) : list ascii :=
  pad2 (hour t) ++ [":"%char] ++ pad2 (minute t) ++ [":"%char]
    ++ pad2 (second t)
    ++ (if (microsecond t =? 0)%N then []
        else ["."%char] ++ pad6 (microsecond t)).

(** [datetime.isoformat()]: YYYY-MM-DDTHH:MM:SS, followed by .ffffff
    when the microsecond is not zero. *)
Definition datetime_isoformat (t : datetime) : string :=
  String.string_of_list_ascii (date_chars (dt_date t) ++ ["T"%char] ++ time_chars t).

Definition is_digit (c : ascii) : bool :=
  let n := N_of_ascii c in ((48 <=? n) && (n <=? 57))%N.

Definition is_char (x c : ascii) : bool := bool_decide (c = x).

(** Does the list of characters match the list of character classes? *)
Fixpoint matches (shape : list (ascii → bool)) (l : list ascii) : bool :=
  match shape, l with
  | [], [] => true
  | f :: shape', c :: l' => f c && matches shape' l'
  | _, _ => false
  end.

Definition date_shape : list (ascii → bool) :=
  [is_digit; is_digit; is_digit; is_digit; is_char "-";
   is_digit; is_digit; is_char "-"; is_digit; is_digit].

Definition time_shape : list (ascii → bool) :=
  [is_digit; is_digit; is_char ":"; is_digit; is_digit; is_char ":";
   is_digit; is_digit].

Definition fraction_shape : list (ascii → bool) :=
  [is_char "."; is_digit; is_digit; is_digit; is_digit; is_digit; is_digit].

(** The text is an ISO 8601 calendar date, YYYY-MM-DD. *)
Definition is_iso_date (s : string) : bool :=
  matches date_shape (String.list_ascii_of_string s).

(** The text is an ISO 8601 date and time, YYYY-MM-DDTHH:MM:SS with an
    optional fraction of six digits. *)
Definition is_iso_datetime (s : string) : bool :=
  let l := String.list_ascii_of_string s in
  matches (date_shape ++ [is_char "T"] ++ time_shape) l
  || matches (date_shape ++ [is_char "T"] ++ time_shape ++ fraction_shape) l.

(** Reading an ISO text back. *)
Definition digit_value (c : ascii) : N := (N_of_ascii c - 48)%N.

Definition number (l : list ascii) : N :=
  foldl (λ n c, (n * 10 + digit_value c)%N) 0%N l.

Definition parse_date_chars (l : list ascii) : option date :=
  if matches date_shape l then
    match l with
    | [y1; y2; y3; y4; _; m1; m2; _; d1; d2] =>
        Some (Date (number [y1; y2; y3; y4]) (number [m1; m2])
                (number [d1; d2]))
    | _ => None
    end
  else None.

Definition parse_time_chars (d : date) (l : list ascii) : option datetime :=
  if matches time_shape (take 8 l) then
    match take 8 l, drop 8 l with
    | [h1; h2; _; m1; m2; _; s1; s2], [] =>
        Some (DateTime d (number [h1; h2]) (number [m1; m2])
                (number [s1; s2]) 0)
    | [h1; h2; _; m1; m2; _; s1; s2], dot :: fraction =>
        if matches fraction_shape (dot :: fraction)
        then Some (DateTime d (number [h1; h2]) (number [m1; m2])
                     (number [s1; s2]) (number fraction))
        else None
    | _, _ => None
    end
  else None.

(** The date an ISO text YYYY-MM-DD writes. *)
Definition parse_date (s : string) : option date :=
  parse_date_chars (String.list_ascii_of_string s).

(** The time an ISO text YYYY-MM-DDTHH:MM:SS[.ffffff] writes. *)
Definition parse_datetime (s : string) : option datetime :=
  let l := String.list_ascii_of_string s in
  match parse_date_chars (take 10 l), drop 10 l with
  | Some d, t :: rest =>
      if is_char "T" t then parse_time_chars d rest else None
  | _, _ => None
  end.

End Iso.

(** The key [ORDER BY updated_at] compares: for the field ranges of a
    [datetime] it grows exactly with time. *)
Definition date_key (d : date) : N :=
  ((year d * 13 + month d) * 32 + day d)%N.

Definition datetime_key (t : datetime) : N :=
  ((((date_key (dt_date t) * 24 + hour t) * 60 + minute t) * 60 + second t)
     * 1000000 + microsecond t)%N.

(** The fields of a date are within the ranges of a Python [date]. *)
Definition date_in_range (d : date) : Prop :=
  (1 ≤ year d ≤ 9999 ∧ 1 ≤ month d ≤ 12 ∧ 1 ≤ day d ≤ 31)%N.

(** The fields of a time are within the ranges of a Python [datetime]. *)
Definition datetime_in_range (t : datetime) : Prop :=
  (month (dt_date t) ≤ 12 ∧ day (dt_date t) ≤ 31 ∧ hour t < 24
   ∧ minute t < 60 ∧ second t < 60 ∧ microsecond t < 1000000)%N.

(** [a] is not later than [b], field by field. *)
Definition not_later (a b : datetime) : Prop :=
  let fields t :=
    [year (dt_date t); month (dt_date t); day (dt_date t);
     hour t; minute t; second t; microsecond t] in
  (fix le (x y : list N) : Prop :=
     match x, y with
     | u :: x', v :: y' => (u < v)%N ∨ (u = v ∧ le x' y')
     | _, _ => True
     end) (fields a) (fields b).

(* ===================================================================== *)
(** ** The model: [class Practice(db.Model)] *)
(* ===================================================================== *)

(** One row of the table [pratiche].  A nullable column is an [option]. *)
Record Practice := mkPractice {
  id : Z;
  cliente : string;
  oggetto : string;
  stato : string;
  data_apertura : date;
  data_chiusura : option date;
  note : option string;
  updated_at : datetime;
  updated_by : option string;
  created_at : datetime;
  created_by : option string
}.

Global Instance Practice_eq_dec : EqDecision Practice.
Proof. solve_decision. Defined.

(** Attribute assignment, [p.field = v]. *)
Definition set_cliente (v : string) (p : Practice) : Practice :=
  mkPractice (id p) v (oggetto p) (stato p) (data_apertura p)
    (data_chiusura p) (note p) (updated_at p) (updated_by p)
    (created_at p) (created_by p).
Definition set_oggetto (v : string) (p : Practice) : Practice :=
  mkPractice (id p) (cliente p) v (stato p) (data_apertura p)
    (data_chiusura p) (note p) (updated_at p) (updated_by p)
    (created_at p) (created_by p).
Definition set_stato (v : string) (p : Practice) : Practice :=
  mkPractice (id p) (cliente p) (oggetto p) v (data_apertura p)
    (data_chiusura p) (note p) (updated_at p) (updated_by p)
    (created_at p) (created_by p).
Definition set_note (v : option string) (p : Practice) : Practice :=
  mkPractice (id p) (cliente p) (oggetto p) (stato p) (data_apertura p)
    (data_chiusura p) v (updated_at p) (updated_by p)
    (created_at p) (created_by p).
Definition set_data_chiusura (v : option date) (p : Practice) : Practice :=
  mkPractice (id p) (cliente p) (oggetto p) (stato p) (data_apertura p)
    v (note p) (updated_at p) (updated_by p)
    (created_at p) (created_by p).
Definition set_updated_at (v : datetime) (p : Practice) : Practice :=
  mkPractice (id p) (cliente p) (oggetto p) (stato p) (data_apertura p)
    (data_chiusura p) (note p) v (updated_by p)
    (created_at p) (created_by p).
Definition set_updated_by (v : option string) (p : Practice) : Practice :=
  mkPractice (id p) (cliente p) (oggetto p) (stato p) (data_apertura p)
    (data_chiusura p) (note p) (updated_at p) v
    (created_at p) (created_by p).

(** JSON values that [to_dict] produces. *)
Inductive json :=
| JNull
| JInt (n : Z)
| JStr (s : string).

Global Instance json_eq_dec : EqDecision json.
Proof. solve_decision. Defined.

(** [x.isoformat() if x else None]; a date or a datetime is always true. *)
Definition iso_or_null {A} (isoformat : A → string) (x : option A) : json :=
  match x with
  | Some d => JStr (isoformat d)
  | None => JNull
  end.

(** [Practice.to_dict]: the dict as its (key, value) pairs in source order.
    [data_apertura] and [updated_at] are NOT NULL columns, so a stored row
    always holds a value there. *)
Definition to_dict (self : Practice) : list (string * json) :=
  [ ("id", JInt (id self));
    ("cliente", JStr (cliente self));
    ("oggetto", JStr (oggetto self));
    ("stato", JStr (stato self));
    ("data_apertura", iso_or_null Iso.date_isoformat (Some (data_apertura self)));
    ("data_chiusura", iso_or_null Iso.date_isoformat (data_chiusura self));
    ("note", JStr (Py.or_empty (note self)));
    ("updated_at", iso_or_null Iso.datetime_isoformat (Some (updated_at self)));
    ("updated_by", JStr (Py.or_empty (updated_by self))) ].

(* ===================================================================== *)
(** ** Requests, the environment and the application state *)
(* ===================================================================== *)

Inductive http_method := GET | POST.

Record request := mkRequest {
  method : http_method;
  args : list (string * string);   (* query string, [request.args] *)
  form : list (string * string)    (* body, [request.form] *)
}.

(** What a handler reads from outside while it runs.
    [current_user] is [None] for flask-login's anonymous user, which has
    no attribute [username].  [utcnow_default] is the reading
    the column default of [created_at] takes when the row is inserted. *)
Record env := mkEnv {
  today : date;
  utcnow : datetime;
  utcnow_default : datetime;
  current_user : option string
}.

(** The table [pratiche], keyed by primary key, and the flashed messages. *)
Record state := mkState {
  pratiche_table : gmap Z Practice;
  flashes : list (string * string)
}.

Definition init : state := mkState ∅ [].

Inductive response :=
| RenderTemplate (template mode : string) (pratica : option Practice)
| Redirect (endpoint stato : string)
| Jsonify (items : list (list (string * json)))
| NotFound                (* [get_or_404] aborts with 404 *)
| InternalServerError.    (* an exception leaves the handler *)

(** [flash(message, category)] *)
Definition flash (message category : string) (st : state) : state :=
  mkState (pratiche_table st) (flashes st ++ [(message, category)]).

(** The three values of [stato]. *)
Definition STATI : list string := ["NUOVA"; "ATTIVA"; "CHIUSA"].

(** [stato in ("NUOVA", "ATTIVA", "CHIUSA")] *)
Definition stato_valido (s : string) : bool := bool_decide (s ∈ STATI).

(** The key an INTEGER PRIMARY KEY column gets on insert in SQLite (the
    database [DATABASE_URL] defaults to): one more than the largest key in
    the table, 1 in an empty table. *)
Definition next_id (t : gmap Z Practice) : Z :=
  1 + foldr Z.max 0 (map_to_list t).*1.

(** [db.session.add(p); db.session.commit()] for a new row. *)
Definition insert_row (p : Practice) (st : state) : state :=
  mkState (<[id p := p]> (pratiche_table st)) (flashes st).

(** [db.session.commit()] after attribute assignments on a loaded row. *)
Definition update_row (p : Practice) (st : state) : state :=
  mkState (<[id p := p]> (pratiche_table st)) (flashes st).

(** [db.session.delete(p); db.session.commit()] *)
Definition delete_row (p : Practice) (st : state) : state :=
  mkState (delete (id p) (pratiche_table st)) (flashes st).

(** [Practice.query.get(pid)], for a [pid] among the 64-bit integers a key
    of the table can be. *)
Definition query_get (pid : Z) (st : state) : option Practice :=
  pratiche_table st !! pid.

(** [ORDER BY updated_at DESC]: [p] may come before [q]. *)
Definition updated_at_desc (p q : Practice) : Prop :=
  (datetime_key (updated_at q) ≤ datetime_key (updated_at p))%N.

Global Instance updated_at_desc_dec : RelDecision updated_at_desc.
Proof. intros p q. unfold updated_at_desc. apply _. Defined.

(** [Practice.query.filter_by(stato=stato)
       .order_by(Practice.updated_at.desc()).all()].
    SQL leaves the order of rows with the same [updated_at] open; the sort
    here settles it in one of the ways allowed. *)
Definition query_filter_by_stato (s : string) (st : state) : list Practice :=
  merge_sort updated_at_desc
    (filter (λ p, stato p = s) (map_to_list (pratiche_table st)).*2).

(* ===================================================================== *)
(** ** The handlers *)
(* ===================================================================== *)

(** [api_pratiche]: the status the listing filters on. *)
Definition api_stato (req : request) : string :=
  let stato := Py.upper (Py.get_default "stato" (args req) "ATTIVA") in
  if negb (stato_valido stato) then "ATTIVA" else stato.

(** [api_pratiche]: the rows [items]. *)
Definition api_items (req : request) (st : state) : list Practice :=
  query_filter_by_stato (api_stato req) st.

(** [GET /api/pratiche] *)
Definition api_pratiche (req : request) (st : state) : response * state :=
  (Jsonify (to_dict <$> api_items req st), st).

(** The three text fields of the form, as both handlers read them:
    [(request.form.get(k) or "").strip()]. *)
Definition form_cliente (req : request) : string :=
  Py.strip (Py.or_empty (Py.get "cliente" (form req))).
Definition form_oggetto (req : request) : string :=
  Py.strip (Py.or_empty (Py.get "oggetto" (form req))).
Definition form_note (req : request) : string :=
  Py.strip (Py.or_empty (Py.get "note" (form req))).

(** [pratica_nuova]: the status of the new row. *)
Definition nuova_stato (req : request) : string :=
  let stato := Py.upper (Py.or_else (Py.get "stato" (form req)) "NUOVA") in
  if negb (stato_valido stato) then "NUOVA" else stato.

(** [pratica_modifica]: the status the row [p] gets. *)
Definition modifica_stato (p : Practice) (req : request) : string :=
  let s := Py.upper (Py.or_else (Py.get "stato" (form req)) (stato p)) in
  if negb (stato_valido s) then stato p else s.

(** [GET, POST /pratiche/nuova] *)
Definition pratica_nuova (e : env) (req : request) (st : state)
    : response * state :=
  match method req with
  | POST =>
      let cliente := form_cliente req in
      let oggetto := form_oggetto req in
      let stato := nuova_stato req in
      let note := form_note req in
      if negb (Py.truthy cliente) || negb (Py.truthy oggetto) then
        (RenderTemplate "pratica_form.html" "new" None,
         flash "Cliente e Oggetto sono obbligatori." "error" st)
      else
        match current_user e with
        | None => (InternalServerError, st)
        | Some username =>
            let p := {|
              id := next_id (pratiche_table st);
              cliente := cliente;
              oggetto := oggetto;
              stato := stato;
              data_apertura := today e;
              data_chiusura := None;
              note := Some note;
              created_by := Some username;
              updated_by := Some username;
              updated_at := utcnow e;
              created_at := utcnow_default e
            |} in
            (Redirect "pratiche" stato,
             flash "Pratica creata." "ok" (insert_row p st))
        end
  | GET => (RenderTemplate "pratica_form.html" "new" None, st)
  end.

(** The two statements that maintain [data_chiusura] in
    [pratica_modifica], in source order. *)
Definition gestione_data_chiusura (e : env) (stato : string) (p : Practice)
    : Practice :=
  let p :=
    if bool_decide (stato = "CHIUSA") && bool_decide (data_chiusura p = None)
    then set_data_chiusura (Some (today e)) p else p in
  if bool_decide (stato ≠ "CHIUSA") then set_data_chiusura None p else p.

(** [GET, POST /pratiche/<pid>/modifica] *)
Definition pratica_modifica (e : env) (pid : Z) (req : request) (st : state)
    : response * state :=
  match query_get pid st with
  | None => (NotFound, st)
  | Some p =>
      match method req with
      | POST =>
          let cliente := form_cliente req in
          let oggetto := form_oggetto req in
          let stato := modifica_stato p req in
          let note := form_note req in
          if negb (Py.truthy cliente) || negb (Py.truthy oggetto) then
            (RenderTemplate "pratica_form.html" "edit" (Some p),
             flash "Cliente e Oggetto sono obbligatori." "error" st)
          else
            let p1 := set_cliente cliente p in
            let p2 := set_oggetto oggetto p1 in
            let p3 := set_stato stato p2 in
            let p4 := set_note (Some note) p3 in
            let p5 := gestione_data_chiusura e stato p4 in
            let p6 := set_updated_at (utcnow e) p5 in
            match current_user e with
            | None => (InternalServerError, st)
            | Some username =>
                let p7 := set_updated_by (Some username) p6 in
                (Redirect "pratiche" stato,
                 flash "Pratica aggiornata." "ok" (update_row p7 st))
            end
      | GET => (RenderTemplate "pratica_form.html" "edit" (Some p), st)
      end
  end.

(** The row [pratica_modifica] writes back for the stored row [p]. *)
Definition modified (e : env) (req : request) (username : string)
  (p : Practice) : Practice :=
  set_updated_by (Some username)
    (set_updated_at (utcnow e)
      (gestione_data_chiusura e (modifica_stato p req)
        (set_note (Some (form_note req))
          (set_stato (modifica_stato p req)
            (set_oggetto (form_oggetto req)
              (set_cliente (form_cliente req) p)))))).

(** [POST /pratiche/<pid>/elimina] *)
Definition pratica_elimina (pid : Z) (st : state) : response * state :=
  match query_get pid st with
  | None => (NotFound, st)
  | Some p =>
      let stato := stato p in
      (Redirect "pratiche" stato,
       flash "Pratica eliminata." "ok" (delete_row p st))
  end.

(* ===================================================================== *)
(** ** Sample data *)
(* ===================================================================== *)

Module Sample.

Definition d1 : date := Date 2024 5 1.
Definition d2 : date := Date 2024 5 2.
Definition d3 : date := Date 2024 5 3.

Definition e1 : env :=
  mkEnv d1 (DateTime d1 9 0 0 0) (DateTime d1 9 0 0 15) (Some "admin").
Definition e2 : env :=
  mkEnv d2 (DateTime d2 10 30 0 250) (DateTime d2 10 30 0 260) (Some "collab").
Definition e3 : env :=
  mkEnv d3 (DateTime d3 8 15 59 0) (DateTime d3 8 15 59 7) (Some "admin").

(** A later day than any of the above. *)
Definition e4 : env :=
  mkEnv (Date 2024 6 1) (DateTime (Date 2024 6 1) 7 0 0 0)
    (DateTime (Date 2024 6 1) 7 0 0 9) (Some "collab").

(** U+00A0, the no-break space, in UTF-8. *)
Definition nbsp : string := String (ascii_of_N 194) (String (ascii_of_N 160) "").

Definition post (cl og s n : string) : request :=
  mkRequest POST []
    [("cliente", cl); ("oggetto", og); ("stato", s); ("note", n)].

Definition list_of (s : string) : request :=
  mkRequest GET [("stato", s)] [].

(** A table with one row of each status. *)
Definition st3 : state :=
  (pratica_nuova e3 (post "Gamma" "Ricorso" "attiva" "")
    (pratica_nuova e2 (post "Beta" "Parere" "chiusa" "urgente")
      (pratica_nuova e1 (post " Acme " "Contratto" "bogus" "") init).2).2).2.

(** [st3] after the first row was set to ATTIVA on the later day. *)
Definition st4 : state :=
  (pratica_modifica e4 1 (post "Acme" "Contratto" "attiva" "") st3).2.

End Sample.


(* ===================================================================== *)
(** ** Configuration *)
(* ===================================================================== *)

Module PyStr.

(** [s.startswith(prefix)] *)
Fixpoint startswith (s prefix : string) : bool :=
  match prefix, s with
  | EmptyString, _ => true
  | String a prefix', String b s' => bool_decide (a = b) && startswith s' prefix'
  | String _ _, EmptyString => false
  end.

(** [s[n:]] *)
Fixpoint skip (n : nat) (s : string) : string :=
  match n, s with
  | O, _ => s
  | S n', String _ s' => skip n' s'
  | S _, EmptyString => EmptyString
  end.

(** [s.replace(old, new, 1)]: the first occurrence of [old], from the
    left, becomes [new]. *)
Fixpoint replace_first (old new s : string) {struct s} : string :=
  if startswith s old then new +:+ skip (String.length old) s
  else match s with
       | EmptyString => EmptyString
       | String c s' => String c (replace_first old new s')
       end.

(** [d.get(k)] on a dict kept as its items in insertion order. *)
Fixpoint dict_get {A} (k : string) (d : list (string * A)) : option A :=
  match d with
  | [] => None
  | (k', v) :: d' => if decide (k' = k) then Some v else dict_get k d'
  end.

End PyStr.

(** [os.environ.get(k, d)], with [os.environ] a finite map. *)
Definition environ_get (environ : gmap string string) (k d : string) : string :=
  default d (environ !! k).

(** [app.config["SECRET_KEY"]] *)
Definition SECRET_KEY (environ : gmap string string) : string :=
  environ_get environ "SECRET_KEY" "dev-secret-change-me".

(** [app.config["SQLALCHEMY_DATABASE_URI"]]: [DATABASE_URL], with the
    scheme [postgres://] turned into [postgresql://]. *)
Definition SQLALCHEMY_DATABASE_URI (environ : gmap string string) : string :=
  let database_url := environ_get environ "DATABASE_URL" "sqlite:///local.db" in
  if PyStr.startswith database_url "postgres://"
  then PyStr.replace_first "postgres://" "postgresql://" database_url
  else database_url.

(* ===================================================================== *)
(** ** HTTP basic authentication *)
(* ===================================================================== *)

Section basic_auth.

(** werkzeug's [check_password_hash], and the two hashes that
    [generate_password_hash] returned when the module was loaded. *)
Variable check_password_hash : string → string → bool.
Variables hash_test123 hash_collab123 : string.

Definition BASIC_USERS : list (string * string) :=
  [("test", hash_test123); ("collab", hash_collab123)].

(** [verify_password]; the debugging [print] is left out. *)
Definition verify_password (username password : string) : option string :=
  match PyStr.dict_get username BASIC_USERS with
  | Some h => if check_password_hash h password then Some username else None
  | None => None
  end.

End basic_auth.

(* ===================================================================== *)
(** ** Users, login and logout *)
(* ===================================================================== *)

Module Auth.

(** [class User(UserMixin)] *)
Record User := mkUser { id : string; username : string; password : string }.

Global Instance User_eq_dec : EqDecision User.
Proof. solve_decision. Defined.

(** [load_users]: the dict, as its items in insertion order. *)
Definition load_users (environ : gmap string string) : list (string * User) :=
  let u1 := environ_get environ "USER1_USERNAME" "admin" in
  let p1 := environ_get environ "USER1_PASSWORD" "admin" in
  let u2 := environ_get environ "USER2_USERNAME" "collab" in
  let p2 := environ_get environ "USER2_PASSWORD" "collab" in
  [("1", mkUser "1" u1 p1); ("2", mkUser "2" u2 p2)].

(** The global [USERS], the user id flask-login keeps in the session, and
    the flashed messages. *)
Record state := mkState {
  USERS : list (string * User);
  session_user_id : option string;
  flashes : list (string * string)
}.

(** The module is loaded: [USERS = load_users()], nobody is logged in. *)
Definition init (environ : gmap string string) : state :=
  mkState (load_users environ) None [].

(** [load_user], the [user_loader] of flask-login. *)
Definition load_user (user_id : string) (st : state) : option User :=
  PyStr.dict_get user_id (USERS st).

(** [refresh_users] *)
Definition refresh_users (environ : gmap string string) (st : state) : state :=
  mkState (load_users environ) (session_user_id st) (flashes st).

(** flask-login's [login_user(u)] puts [u.get_id()] into the session, and
    [logout_user()] takes it out. *)
Definition login_user (u : User) (st : state) : state :=
  mkState (USERS st) (Some (id u)) (flashes st).
Definition logout_user (st : state) : state :=
  mkState (USERS st) None (flashes st).

(** flask-login's [current_user]: what [load_user] gives for the id in the
    session; [None] stands for the anonymous user. *)
Definition current_user (st : state) : option User :=
  match session_user_id st with
  | Some i => load_user i st
  | None => None
  end.

Definition flash (message category : string) (st : state) : state :=
  mkState (USERS st) (session_user_id st) (flashes st ++ [(message, category)]).

(** The loop of [login] over [USERS.values()]: the first user with this
    name and password. *)
Fixpoint find_user (name pw : string) (users : list User) : option User :=
  match users with
  | [] => None
  | u :: users' =>
      if bool_decide (username u = name) && bool_decide (password u = pw)
      then Some u
      else find_user name pw users'
  end.

(** The pages these handlers answer with. *)
Inductive page :=
| LoginPage                        (* [render_template("login.html")] *)
| PratichePage (stato : string)    (* [render_template("pratiche.html", stato=stato)] *)
| RedirectTo (endpoint : string).  (* [redirect(url_for(endpoint))] *)

(** [GET /] *)
Definition home : page := RedirectTo "pratiche".

(** [GET, POST /login] *)
Definition login (environ : gmap string string) (req : request) (st : state)
  : page * state :=
  let st := refresh_users environ st in
  match method req with
  | POST =>
      let name := Py.strip (Py.or_empty (Py.get "username" (form req))) in
      let pw := Py.or_empty (Py.get "password" (form req)) in
      match find_user name pw (USERS st).*2 with
      | Some found => (RedirectTo "pratiche", login_user found st)
      | None => (LoginPage, flash "Credenziali non valide." "error" st)
      end
  | GET => (LoginPage, st)
  end.

(** [GET /logout] *)
Definition logout (st : state) : page * state :=
  (RedirectTo "login", logout_user st).

(** [GET /pratiche] *)
Definition pratiche (req : request) : page :=
  let stato := Py.upper (Py.get_default "stato" (args req) "ATTIVA") in
  let stato := if negb (stato_valido stato) then "ATTIVA" else stato in
  PratichePage stato.

End Auth.

(** The request a browser sends after [redirect(url_for("pratiche",
    stato=stato))], and the one the page then sends to [/api/pratiche]:
    a GET with [stato] in the query string. *)
Definition get_with_stato (stato : string) : request :=
  mkRequest GET [("stato", stato)] [].

(** All rows of the table. *)
Definition all_rows (st : state) : list Practice :=
  (map_to_list (pratiche_table st)).*2.

(** What the handlers maintain of a row besides [row_ok]: the key is
    positive, the texts are stored stripped, and the columns the handlers
    always fill are not NULL. *)
Record row_filled (k : Z) (p : Practice) : Prop := RowFilled {
  filled_id : 0 < k;
  filled_cliente : Py.strip (cliente p) = cliente p;
  filled_oggetto : Py.strip (oggetto p) = oggetto p;
  filled_note : ∃ n, note p = Some n ∧ Py.strip n = n;
  filled_created_by : is_Some (created_by p);
  filled_updated_by : is_Some (updated_by p)
}.

Definition rows_filled (st : state) : Prop :=
  map_Forall row_filled (pratiche_table st).

(* ===================================================================== *)
(** ** Runs of the application and what holds of every stored row *)
(* ===================================================================== *)

(** One request served. *)
Inductive step : state → state → Prop :=
| step_api req st : step st (api_pratiche req st).2
| step_nuova e req st : step st (pratica_nuova e req st).2
| step_modifica e pid req st : step st (pratica_modifica e pid req st).2
| step_elimina pid st : step st (pratica_elimina pid st).2.

(** The states the application gets to from the empty table. *)
Definition reachable (st : state) : Prop := rtc step init st.

(** Every row sits under its own [id]. *)
Definition keyed (st : state) : Prop :=
  map_Forall (λ k p, id p = k) (pratiche_table st).

(** What the handlers maintain of a row stored under key [k]. *)
Record row_ok (k : Z) (p : Practice) : Prop := RowOk {
  row_id : id p = k;
  row_stato : stato p ∈ STATI;
  row_cliente : Py.truthy (cliente p) = true;
  row_oggetto : Py.truthy (oggetto p) = true;
  row_chiusura : is_Some (data_chiusura p) → stato p = "CHIUSA"
}.

Definition rows_ok (st : state) : Prop :=
  map_Forall row_ok (pratiche_table st).

(** The property of rows the specification states as an invariant: a
    closing date is stored exactly for the closed rows. *)
Definition chiusura_iff_chiusa (st : state) : Prop :=
  ∀ k p, query_get k st = Some p →
    (data_chiusura p ≠ None ↔ stato p = "CHIUSA").

(** The response of a handler that has written: a redirect to the list. *)
Definition succeeded (r : response) : bool :=
  match r with Redirect _ _ => true | _ => false end.

(** The input of a required field is missing, empty or only white space. *)
Definition all_space (s : string) : bool :=
  forallb Py.isspace (Utf8.decode s).

Definition blank (x : option string) : bool :=
  match x with None => true | Some s => all_space s end.

(* ===================================================================== *)
(** ** Strings *)
(* ===================================================================== *)

Ltac lia_div := zify; Z.to_euclidean_division_equations; lia.

Ltac decide_bounds :=
  repeat match goal with
  | |- context [(?a <? ?b)%N] =>
      first [ rewrite (proj2 (N.ltb_lt a b)) by lia_div
            | rewrite (proj2 (N.ltb_ge a b)) by lia_div ]
  | |- context [(?a <=? ?b)%N] =>
      first [ rewrite (proj2 (N.leb_le a b)) by lia_div
            | rewrite (proj2 (N.leb_gt a b)) by lia_div ]
  end.

Ltac bounds_of_guard :=
  unfold Utf8.continuation in *;
  repeat match goal with
  | H : _ && _ = true |- _ => apply andb_prop in H as [? ?]
  | H : (_ <? _)%N = true |- _ => apply N.ltb_lt in H
  | H : (_ <=? _)%N = true |- _ => apply N.leb_le in H
  end; lia.

Section utf8.

Implicit Types (cp b : N) (l r : list N) (s : string).

Lemma encode_char_bytes cp :
  (cp < 2097152)%N → Forall (λ b, (b < 256)%N) (Utf8.encode_char cp).
Proof.
  intros Hcp. unfold Utf8.encode_char.
  repeat case_match;
    repeat match goal with
    | H : (_ <? _)%N = true |- _ => apply N.ltb_lt in H
    | H : (_ <? _)%N = false |- _ => apply N.ltb_ge in H
    end;
    repeat first [apply Forall_nil_2 | apply Forall_cons_2]; lia_div.
Qed.

Lemma decode_bytes_encode_char cp r :
  (cp < 2097152)%N →
  Utf8.decode_bytes (Utf8.encode_char cp ++ r) = cp :: Utf8.decode_bytes r.
Proof.
  intros Hcp. unfold Utf8.encode_char.
  destruct (cp <? 128)%N eqn:H1.
  { cbn [app Utf8.decode_bytes]. by rewrite H1. }
  apply N.ltb_ge in H1.
  destruct (cp <? 2048)%N eqn:H2.
  { apply N.ltb_lt in H2.
    cbn [app Utf8.decode_bytes]. unfold Utf8.continuation.
    decide_bounds. cbn [andb]. f_equal. lia_div. }
  apply N.ltb_ge in H2.
  destruct (cp <? 65536)%N eqn:H3.
  { apply N.ltb_lt in H3.
    cbn [app Utf8.decode_bytes]. unfold Utf8.continuation.
    decide_bounds. cbn [andb]. f_equal. lia_div. }
  apply N.ltb_ge in H3.
  cbn [app Utf8.decode_bytes]. unfold Utf8.continuation.
  decide_bounds. cbn [andb]. f_equal. lia_div.
Qed.

Lemma decode_bytes_encode l :
  Forall (λ cp, (cp < 2097152)%N) l →
  Utf8.decode_bytes (l ≫= Utf8.encode_char) = l.
Proof.
  induction 1 as [|cp l Hcp _ IH]; [done|].
  rewrite bind_cons, decode_bytes_encode_char by done. by rewrite IH.
Qed.

Lemma bytes_of_ascii_of_bytes l :
  Forall (λ b, (b < 256)%N) l →
  N_of_ascii <$> (ascii_of_N <$> l) = l.
Proof.
  induction 1 as [|b l Hb _ IH]; [done|].
  cbn [fmap list_fmap]. rewrite N_ascii_embedding by done.
  f_equal. exact IH.
Qed.

Lemma decode_encode l :
  Forall (λ cp, (cp < 2097152)%N) l → Utf8.decode (Utf8.encode l) = l.
Proof.
  intros Hl. unfold Utf8.decode, Utf8.encode.
  rewrite String.list_ascii_of_string_of_list_ascii.
  rewrite bytes_of_ascii_of_bytes; [by apply decode_bytes_encode|].
  apply Forall_bind. eapply Forall_impl; [exact Hl|].
  intros cp Hcp. by apply encode_char_bytes.
Qed.

Lemma decode_bytes_bounded l :
  Forall (λ b, (b < 256)%N) l →
  Forall (λ cp, (cp < 2097152)%N) (Utf8.decode_bytes l).
Proof.
  remember (length l) as n eqn:Hn. revert l Hn.
  induction n as [n IH] using lt_wf_ind. intros l -> Hl.
  assert (∀ r, (length r < length l)%nat → Forall (λ b, (b < 256)%N) r →
               Forall (λ cp, (cp < 2097152)%N) (Utf8.decode_bytes r)) as IH'.
  { intros r Hr. by apply (IH (length r)). }
  clear IH.
  destruct l as [|b1 r1]; [constructor|].
  apply Forall_cons in Hl as [Hb1 Hr1].
  assert (Forall (λ cp, (cp < 2097152)%N) (Utf8.decode_bytes r1)) as Hd1.
  { apply IH'; [simpl; lia|done]. }
  cbn [Utf8.decode_bytes].
  destruct (b1 <? 128)%N eqn:H1.
  { apply N.ltb_lt in H1. constructor; [cbv beta; lia|done]. }
  destruct r1 as [|b2 r2]; [constructor; [reflexivity|done]|].
  apply Forall_cons in Hr1 as [Hb2 Hr2].
  destruct (_ && Utf8.continuation b2) eqn:H2.
  { constructor; [cbv beta; bounds_of_guard|]. apply IH'; [simpl; lia|done]. }
  destruct r2 as [|b3 r3]; [constructor; [reflexivity|done]|].
  apply Forall_cons in Hr2 as [Hb3 Hr3].
  destruct (_ && Utf8.continuation b3) eqn:H3.
  { constructor; [cbv beta; bounds_of_guard|]. apply IH'; [simpl; lia|done]. }
  destruct r3 as [|b4 r4]; [constructor; [reflexivity|done]|].
  apply Forall_cons in Hr3 as [Hb4 Hr4].
  destruct (_ && Utf8.continuation b4) eqn:H4.
  { constructor.
    - cbv beta. bounds_of_guard.
    - apply IH'; [simpl; lia|done]. }
  constructor; [reflexivity|done].
Qed.

Lemma decode_bounded s : Forall (λ cp, (cp < 2097152)%N) (Utf8.decode s).
Proof.
  apply decode_bytes_bounded, Forall_fmap, Forall_forall.
  intros c _. apply N_ascii_bounded.
Qed.

Lemma decode_encode_decode s :
  Utf8.decode (Utf8.encode (Utf8.decode s)) = Utf8.decode s.
Proof. apply decode_encode, decode_bounded. Qed.

End utf8.

Section strings.

Lemma encode_nil : Utf8.encode [] = "".
Proof. done. Qed.

Lemma lstrip_chars_all_space l :
  forallb Py.isspace l = true → Py.lstrip_chars l = [].
Proof.
  induction l as [|c l IH]; simpl; [done|].
  intros [Hc Hl]%andb_prop. rewrite Hc. auto.
Qed.

Lemma strip_blank x : blank x = true → Py.strip (Py.or_empty x) = "".
Proof.
  destruct x as [s|]; simpl; [|done].
  intros Hs. unfold Py.or_empty, Py.or_else.
  destruct (Py.truthy s); [|done].
  unfold Py.strip. by rewrite (lstrip_chars_all_space _ Hs).
Qed.

Lemma same_letter_upper a b :
  Py.same_letter a b = true → Py.upper_char a = Py.upper_char b.
Proof.
  unfold Py.same_letter.
  rewrite !orb_true_iff, !andb_true_iff, !N.eqb_eq, !N.leb_le.
  intros [[->|[[Hl Hu] ->]]|[[Hl Hu] ->]]; [done| |];
    unfold Py.upper_char; decide_bounds; cbn [andb]; f_equal; lia.
Qed.

Lemma same_letters_upper l m :
  Py.same_letters l m = true →
  l ≫= Py.upper_char = m ≫= Py.upper_char.
Proof.
  revert m.
  induction l as [|a l IH]; intros [|b m]; cbn [Py.same_letters]; try done.
  intros [Hab Hlm]%andb_prop.
  rewrite !bind_cons, (same_letter_upper _ _ Hab). f_equal. by apply IH.
Qed.

(** Texts that differ only in the case of A-Z have the same upper case. *)
Lemma same_ignoring_case_upper s t :
  Py.same_ignoring_case s t = true → Py.upper s = Py.upper t.
Proof.
  unfold Py.same_ignoring_case, Py.upper.
  by intros ->%same_letters_upper.
Qed.

Lemma stato_valido_elem s : stato_valido s = true ↔ s ∈ STATI.
Proof. unfold stato_valido. apply bool_decide_eq_true. Qed.

Lemma STATI_cases s :
  s ∈ STATI ↔ s = "NUOVA" ∨ s = "ATTIVA" ∨ s = "CHIUSA".
Proof. unfold STATI. rewrite !elem_of_cons, elem_of_nil. tauto. Qed.

Lemma upper_STATI s : s ∈ STATI → Py.upper s = s.
Proof. intros [->|[->| ->]]%STATI_cases; done. Qed.

Lemma nuova_stato_valid req : nuova_stato req ∈ STATI.
Proof.
  unfold nuova_stato.
  destruct (stato_valido _) eqn:Hv; simpl.
  - by apply stato_valido_elem.
  - apply STATI_cases; auto.
Qed.

Lemma modifica_stato_valid p req :
  stato p ∈ STATI → modifica_stato p req ∈ STATI.
Proof.
  intros Hp. unfold modifica_stato.
  destruct (stato_valido _) eqn:Hv; simpl; [|done].
  by apply stato_valido_elem.
Qed.

End strings.

(* ===================================================================== *)
(** ** The table *)
(* ===================================================================== *)

Section table.

Lemma foldr_max_ge (l : list Z) k : k ∈ l → k ≤ foldr Z.max 0 l.
Proof.
  induction l as [|x l IH]; simpl.
  - by intros ?%elem_of_nil.
  - intros [->|Hk]%elem_of_cons; [lia|]. specialize (IH Hk). lia.
Qed.

(** The key of a new row is not in use. *)
Lemma next_id_fresh (t : gmap Z Practice) : t !! next_id t = None.
Proof.
  destruct (t !! next_id t) as [p|] eqn:Hp; [|done].
  assert (next_id t ≤ foldr Z.max 0 (map_to_list t).*1) as Hle.
  { apply foldr_max_ge, list_elem_of_fmap.
    exists (next_id t, p). split; [done|]. by apply elem_of_map_to_list. }
  unfold next_id in Hle at 1. lia.
Qed.

Lemma next_id_positive (t : gmap Z Practice) : 0 < next_id t.
Proof.
  unfold next_id.
  assert (0 ≤ foldr Z.max 0 (map_to_list t).*1); [|lia].
  induction ((map_to_list t).*1) as [|x l IH]; simpl; lia.
Qed.

Lemma flash_table m c st : pratiche_table (flash m c st) = pratiche_table st.
Proof. done. Qed.

Lemma flash_flashes m c st : flashes (flash m c st) = flashes st ++ [(m, c)].
Proof. done. Qed.

End table.

(* ===================================================================== *)
(** ** What each handler does, case by case *)
(* ===================================================================== *)

Section handlers.

Implicit Types (e : env) (req : request) (st : state) (p : Practice).

(** [gestione_data_chiusura] by cases on the new status and the old
    date. *)
Lemma gestione_data_chiusura_spec e s p :
  let q := gestione_data_chiusura e s p in
  id q = id p ∧ cliente q = cliente p ∧ oggetto q = oggetto p
  ∧ stato q = stato p ∧ data_apertura q = data_apertura p
  ∧ note q = note p ∧ updated_at q = updated_at p
  ∧ updated_by q = updated_by p ∧ created_at q = created_at p
  ∧ created_by q = created_by p
  ∧ data_chiusura q =
      (if decide (s = "CHIUSA")
       then match data_chiusura p with
            | Some d => Some d
            | None => Some (today e)
            end
       else None).
Proof.
  unfold gestione_data_chiusura.
  destruct (decide (s = "CHIUSA")) as [->|Hs].
  - destruct (data_chiusura p) as [d|] eqn:Hd; simpl;
      rewrite ?Hd; simpl; by rewrite ?Hd.
  - rewrite (bool_decide_eq_false_2 (s = "CHIUSA")) by done.
    rewrite (bool_decide_eq_true_2 (s ≠ "CHIUSA")) by done.
    simpl. done.
Qed.

(** A redirect from [pratica_nuova] means a row was inserted. *)
Lemma pratica_nuova_redirect e req st ep s st' :
  pratica_nuova e req st = (Redirect ep s, st') →
  ∃ username p,
    method req = POST
    ∧ current_user e = Some username
    ∧ Py.truthy (form_cliente req) = true
    ∧ Py.truthy (form_oggetto req) = true
    ∧ ep = "pratiche" ∧ s = nuova_stato req
    ∧ st' = flash "Pratica creata." "ok" (insert_row p st)
    ∧ id p = next_id (pratiche_table st)
    ∧ cliente p = form_cliente req
    ∧ oggetto p = form_oggetto req
    ∧ stato p = nuova_stato req
    ∧ data_apertura p = today e
    ∧ data_chiusura p = None
    ∧ note p = Some (form_note req)
    ∧ updated_at p = utcnow e
    ∧ updated_by p = Some username
    ∧ created_at p = utcnow_default e
    ∧ created_by p = Some username.
Proof.
  unfold pratica_nuova. intros H.
  destruct (method req); [done|].
  destruct (Py.truthy (form_cliente req)) eqn:Hc; [|done].
  destruct (Py.truthy (form_oggetto req)) eqn:Ho; [|done].
  destruct (current_user e) as [u|] eqn:Hu; [|done].
  simpl in H. injection H as <- <- <-.
  eexists u, _. repeat split; reflexivity.
Qed.

(** Any other response of [pratica_nuova] leaves the table as it was. *)
Lemma pratica_nuova_no_redirect e req st :
  succeeded (pratica_nuova e req st).1 = false →
  pratiche_table (pratica_nuova e req st).2 = pratiche_table st.
Proof.
  unfold pratica_nuova.
  destruct (method req); [done|].
  destruct (negb _ || negb _); [done|].
  by destruct (current_user e).
Qed.

(** A redirect from [pratica_modifica] means the row was written back. *)
Lemma pratica_modifica_redirect e pid req st ep s st' :
  pratica_modifica e pid req st = (Redirect ep s, st') →
  ∃ username old,
    query_get pid st = Some old
    ∧ method req = POST
    ∧ current_user e = Some username
    ∧ Py.truthy (form_cliente req) = true
    ∧ Py.truthy (form_oggetto req) = true
    ∧ ep = "pratiche" ∧ s = modifica_stato old req
    ∧ st' = flash "Pratica aggiornata." "ok"
              (update_row (modified e req username old) st).
Proof.
  unfold pratica_modifica. intros H.
  destruct (query_get pid st) as [old|] eqn:Hq; [|done].
  destruct (method req); [done|].
  destruct (Py.truthy (form_cliente req)) eqn:Hc; [|done].
  destruct (Py.truthy (form_oggetto req)) eqn:Ho; [|done].
  destruct (current_user e) as [u|] eqn:Hu; [|done].
  simpl in H. injection H as <- <- <-.
  by exists u, old.
Qed.

Lemma pratica_modifica_no_redirect e pid req st :
  succeeded (pratica_modifica e pid req st).1 = false →
  pratiche_table (pratica_modifica e pid req st).2 = pratiche_table st.
Proof.
  unfold pratica_modifica.
  destruct (query_get pid st); [|done].
  destruct (method req); [done|].
  destruct (negb _ || negb _); [done|].
  by destruct (current_user e).
Qed.

(** The fields of the row written back. *)
Lemma modified_fields e req username p :
  let q := modified e req username p in
  id q = id p
  ∧ cliente q = form_cliente req
  ∧ oggetto q = form_oggetto req
  ∧ stato q = modifica_stato p req
  ∧ data_apertura q = data_apertura p
  ∧ data_chiusura q =
      (if decide (modifica_stato p req = "CHIUSA")
       then match data_chiusura p with
            | Some d => Some d
            | None => Some (today e)
            end
       else None)
  ∧ note q = Some (form_note req)
  ∧ updated_at q = utcnow e
  ∧ updated_by q = Some username
  ∧ created_at q = created_at p
  ∧ created_by q = created_by p.
Proof.
  unfold modified.
  pose proof (gestione_data_chiusura_spec e (modifica_stato p req)
    (set_note (Some (form_note req))
      (set_stato (modifica_stato p req)
        (set_oggetto (form_oggetto req)
          (set_cliente (form_cliente req) p))))) as H.
  simpl in H. destruct H as (?&?&?&?&?&?&?&?&?&?&?).
  simpl. repeat split; done.
Qed.

(** With rows stored under their [id], the row written back is found
    under the key it was read from. *)
Lemma pratica_modifica_lookup e pid req st s st' :
  keyed st →
  pratica_modifica e pid req st = (Redirect "pratiche" s, st') →
  ∃ username old,
    query_get pid st = Some old
    ∧ current_user e = Some username
    ∧ s = modifica_stato old req
    ∧ query_get pid st' = Some (modified e req username old)
    ∧ ∀ k, k ≠ pid → query_get k st' = query_get k st.
Proof.
  intros Hk (u & old & Hq & _ & Hu & _ & _ & _ & -> & ->)
    %pratica_modifica_redirect.
  exists u, old. repeat split; [done..| |].
  - unfold query_get, flash, update_row. cbn [pratiche_table].
    destruct (modified_fields e req u old) as (Hid & _).
    rewrite Hid, (Hk _ _ Hq). apply lookup_insert_eq.
  - intros k Hne. unfold query_get, flash, update_row. cbn [pratiche_table].
    destruct (modified_fields e req u old) as (Hid & _).
    rewrite Hid, (Hk _ _ Hq). by apply lookup_insert_ne.
Qed.

End handlers.

(* ===================================================================== *)
(** ** Invariants of the reachable states *)
(* ===================================================================== *)

Section invariants.

Implicit Types (e : env) (req : request) (st : state) (p : Practice).

Lemma rows_ok_keyed st : rows_ok st → keyed st.
Proof. intros H k p Hp. by destruct (H k p Hp). Qed.

Lemma rows_ok_same_table st st' :
  pratiche_table st' = pratiche_table st → rows_ok st → rows_ok st'.
Proof. unfold rows_ok. by intros ->. Qed.

Lemma redirect_or_not (r : response) :
  (∃ ep s, r = Redirect ep s) ∨ succeeded r = false.
Proof. destruct r; eauto. Qed.

Lemma pratica_nuova_rows_ok e req st :
  rows_ok st → rows_ok (pratica_nuova e req st).2.
Proof.
  intros Hok.
  destruct (redirect_or_not (pratica_nuova e req st).1) as [(ep & s & Hr)|Hr].
  - destruct (pratica_nuova e req st) as [r st'] eqn:Heq. simpl in *. subst r.
    apply pratica_nuova_redirect in Heq
      as (u & p & _ & _ & Hc & Ho & _ & _ & -> & Hid & Hcl & Hog & Hst
          & _ & Hdc & _).
    unfold rows_ok, flash, insert_row. cbn [pratiche_table].
    apply map_Forall_insert_2; [|done].
    split; [done| | | |].
    + rewrite Hst. apply nuova_stato_valid.
    + by rewrite Hcl.
    + by rewrite Hog.
    + rewrite Hdc. by intros [? [=]].
  - eapply rows_ok_same_table; [|done]. by apply pratica_nuova_no_redirect.
Qed.

Lemma modified_row_ok e req username pid old :
  row_ok pid old →
  Py.truthy (form_cliente req) = true →
  Py.truthy (form_oggetto req) = true →
  row_ok pid (modified e req username old).
Proof.
  intros [Hid Hst _ _ _] Hc Ho.
  destruct (modified_fields e req username old)
    as (Hid' & Hcl & Hog & Hs & _ & Hdc & _).
  split.
  - by rewrite Hid'.
  - rewrite Hs. by apply modifica_stato_valid.
  - by rewrite Hcl.
  - by rewrite Hog.
  - rewrite Hdc, Hs. case_decide; [done|]. by intros [? [=]].
Qed.

Lemma pratica_modifica_rows_ok e pid req st :
  rows_ok st → rows_ok (pratica_modifica e pid req st).2.
Proof.
  intros Hok.
  destruct (redirect_or_not (pratica_modifica e pid req st).1)
    as [(ep & s & Hr)|Hr].
  - destruct (pratica_modifica e pid req st) as [r st'] eqn:Heq.
    simpl in *. subst r.
    apply pratica_modifica_redirect in Heq
      as (u & old & Hq & _ & _ & Hc & Ho & _ & _ & ->).
    pose proof (Hok _ _ Hq) as Hold.
    pose proof (modified_row_ok e req u pid old Hold Hc Ho) as Hnew.
    unfold rows_ok, flash, update_row. cbn [pratiche_table].
    rewrite (row_id _ _ Hnew).
    by apply map_Forall_insert_2.
  - eapply rows_ok_same_table; [|done].
    by apply pratica_modifica_no_redirect.
Qed.

Lemma pratica_elimina_rows_ok pid st :
  rows_ok st → rows_ok (pratica_elimina pid st).2.
Proof.
  intros Hok. unfold pratica_elimina.
  destruct (query_get pid st) as [p|]; [|done].
  unfold rows_ok, flash, delete_row. cbn [pratiche_table snd].
  by apply map_Forall_delete.
Qed.

Lemma step_rows_ok st st' : step st st' → rows_ok st → rows_ok st'.
Proof.
  destruct 1; auto using pratica_nuova_rows_ok,
    pratica_modifica_rows_ok, pratica_elimina_rows_ok.
Qed.

(** Every row of a reachable table is kept under its [id], has one of
    the three statuses, a client and a subject, and a closing date only
    if it is closed. *)
Lemma reachable_rows_ok st : reachable st → rows_ok st.
Proof.
  unfold reachable. revert st.
  apply (rtc_ind_r (λ st, rows_ok st) init).
  - unfold rows_ok, init. cbn. apply map_Forall_empty.
  - eauto using step_rows_ok.
Qed.

Lemma reachable_keyed st : reachable st → keyed st.
Proof. auto using rows_ok_keyed, reachable_rows_ok. Qed.

Lemma reachable_step st st' : reachable st → step st st' → reachable st'.
Proof. unfold reachable. intros. by eapply rtc_r. Qed.

End invariants.

(* ===================================================================== *)
(** ** Creating a practice *)
(* ===================================================================== *)

Section nuova.

Implicit Types (e : env) (req : request) (st : state) (p : Practice).

(** The row a successful [pratica_nuova] stores is found under the new
    key, and these are its fields. *)
Lemma pratica_nuova_stored e req st s st' :
  pratica_nuova e req st = (Redirect "pratiche" s, st') →
  ∃ username p,
    current_user e = Some username
    ∧ query_get (next_id (pratiche_table st)) st = None
    ∧ query_get (next_id (pratiche_table st)) st' = Some p
    ∧ (∀ k, k ≠ next_id (pratiche_table st) →
         query_get k st' = query_get k st)
    ∧ id p = next_id (pratiche_table st)
    ∧ cliente p = form_cliente req
    ∧ oggetto p = form_oggetto req
    ∧ stato p = nuova_stato req ∧ s = nuova_stato req
    ∧ data_apertura p = today e
    ∧ data_chiusura p = None
    ∧ note p = Some (form_note req)
    ∧ updated_at p = utcnow e
    ∧ updated_by p = Some username
    ∧ created_at p = utcnow_default e
    ∧ created_by p = Some username.
Proof.
  intros (u & p & _ & Hu & _ & _ & _ & -> & -> & Hid & Hrest)
    %pratica_nuova_redirect.
  exists u, p. unfold query_get, flash, insert_row. cbn [pratiche_table].
  rewrite Hid. split; [done|]. split; [apply next_id_fresh|].
  split; [apply lookup_insert_eq|].
  split; [intros k Hk; by apply lookup_insert_ne|].
  split; [done|]. destruct Hrest as (?&?&?&?&?&?&?&?&?&?).
  repeat split; done.
Qed.

(** Whatever the status, a new row has no closing date. *)
Lemma pratica_nuova_data_chiusura e req st s st' p :
  pratica_nuova e req st = (Redirect "pratiche" s, st') →
  query_get (next_id (pratiche_table st)) st' = Some p →
  data_chiusura p = None.
Proof.
  intros (u & p' & _ & _ & Hp' & _ & _ & _ & _ & _ & _ & _ & Hdc & _)
    %pratica_nuova_stored Hp.
  congruence.
Qed.

(** How [nuova_stato] reads in terms of the status input alone. *)
Lemma nuova_stato_fallback req :
  nuova_stato req =
    let norm := Py.upper (Py.or_empty (Py.get "stato" (form req))) in
    if stato_valido norm then norm else "NUOVA".
Proof.
  unfold nuova_stato, Py.or_empty, Py.or_else.
  destruct (Py.get "stato" (form req)) as [[|c s]|]; simpl; try done.
  by destruct (stato_valido _).
Qed.

(** How [modifica_stato] reads in terms of the status input, for a row
    whose status is one of the three. *)
Lemma modifica_stato_fallback p req :
  stato p ∈ STATI →
  modifica_stato p req =
    let norm := Py.upper (Py.or_empty (Py.get "stato" (form req))) in
    if stato_valido norm then norm else stato p.
Proof.
  intros Hp. unfold modifica_stato, Py.or_empty, Py.or_else.
  destruct (Py.get "stato" (form req)) as [[|c s]|]; simpl.
  - rewrite (upper_STATI _ Hp).
    by rewrite (proj2 (stato_valido_elem _) Hp).
  - by destruct (stato_valido _).
  - rewrite (upper_STATI _ Hp).
    by rewrite (proj2 (stato_valido_elem _) Hp).
Qed.

End nuova.

(** The row that creating a closed practice on the empty table stores. *)
Lemma pratica_nuova_chiusa_row :
  ∃ p,
    query_get 1
      (pratica_nuova Sample.e1 (Sample.post "Beta" "Parere" "CHIUSA" "")
         init).2 = Some p
    ∧ stato p = "CHIUSA"
    ∧ data_chiusura p = None.
Proof. eexists. split; [by vm_compute|]. by cbn. Qed.

(** C1, evaluated on the code.  The claim: a successful create stores
    [data_chiusura = today] when the status is CHIUSA and no date when it
    is NUOVA or ATTIVA.  On the empty table, creating a practice with
    status CHIUSA on 2024-05-01 succeeds and stores the row under key 1
    with status CHIUSA and no closing date: [pratica_nuova] never passes
    [data_chiusura] to the constructor, while [pratica_modifica] sets it
    when a row becomes CHIUSA. *)
Theorem pratica_nuova_chiusa_has_no_data_chiusura :
  (pratica_nuova Sample.e1 (Sample.post "Beta" "Parere" "CHIUSA" "") init).1
    = Redirect "pratiche" "CHIUSA"
  ∧ ∃ p,
      query_get 1
        (pratica_nuova Sample.e1 (Sample.post "Beta" "Parere" "CHIUSA" "")
           init).2 = Some p
      ∧ stato p = "CHIUSA"
      ∧ data_chiusura p = None
      ∧ data_chiusura p ≠ Some (today Sample.e1).
Proof.
  split; [by vm_compute|].
  destruct pratica_nuova_chiusa_row as (p & Hp & Hs & Hd).
  exists p. rewrite Hd. done.
Qed.

(** C2, evaluated on the code.  The claim: in every state reachable by
    successful creates and updates, a row has a closing date if and only
    if its status is CHIUSA.  The state reached from the empty table by
    creating one practice with status CHIUSA holds a closed row without a
    closing date. *)
Theorem reachable_state_breaks_chiusura_iff_chiusa :
  reachable
    (pratica_nuova Sample.e1 (Sample.post "Beta" "Parere" "CHIUSA" "") init).2
  ∧ ¬ chiusura_iff_chiusa
    (pratica_nuova Sample.e1 (Sample.post "Beta" "Parere" "CHIUSA" "") init).2.
Proof.
  split.
  - eapply reachable_step; [apply rtc_refl|apply step_nuova].
  - intros H.
    destruct pratica_nuova_chiusa_row as (p & Hp & Hs & Hd).
    apply (H 1 p Hp) in Hs. by apply Hs.
Qed.

(** A handler's result, from its response. *)
Lemma result_of_response (x : response * state) (r : response) :
  x.1 = r → x = (r, x.2).
Proof. intros <-. by destruct x. Qed.

Ltac run_handler := apply result_of_response; vm_compute; reflexivity.

Lemma result_of_page (x : Auth.page * Auth.state) (r : Auth.page) :
  x.1 = r → x = (r, x.2).
Proof. intros <-. by destruct x. Qed.

(* ===================================================================== *)
(** ** Required fields *)
(* ===================================================================== *)

(** C3.  When the client input or the subject input of a POST is missing,
    empty or only white space, [pratica_nuova] answers with the form and
    the error message and leaves the table as it was, and so does
    [pratica_modifica] for every stored row, which it hands back to the
    form as it is stored. *)
Theorem blank_required_field_is_rejected
    (e : env) (req : request) (st : state)
    (Hpost : method req = POST)
    (Hblank : blank (Py.get "cliente" (form req)) = true
              ∨ blank (Py.get "oggetto" (form req)) = true) :
  (pratica_nuova e req st =
     (RenderTemplate "pratica_form.html" "new" None,
      flash "Cliente e Oggetto sono obbligatori." "error" st)
   ∧ pratiche_table (pratica_nuova e req st).2 = pratiche_table st)
  ∧ ∀ pid p, query_get pid st = Some p →
      pratica_modifica e pid req st =
        (RenderTemplate "pratica_form.html" "edit" (Some p),
         flash "Cliente e Oggetto sono obbligatori." "error" st)
      ∧ pratiche_table (pratica_modifica e pid req st).2 = pratiche_table st
      ∧ query_get pid (pratica_modifica e pid req st).2 = Some p.
Proof.
  assert (negb (Py.truthy (form_cliente req))
          || negb (Py.truthy (form_oggetto req)) = true) as Hcheck.
  { unfold form_cliente, form_oggetto.
    destruct Hblank as [H|H]; rewrite (strip_blank _ H); simpl; [done|].
    apply orb_true_r. }
  assert (pratica_nuova e req st =
     (RenderTemplate "pratica_form.html" "new" None,
      flash "Cliente e Oggetto sono obbligatori." "error" st)) as Hn.
  { unfold pratica_nuova. by rewrite Hpost, Hcheck. }
  split; [by rewrite Hn|].
  intros pid p Hp.
  assert (pratica_modifica e pid req st =
     (RenderTemplate "pratica_form.html" "edit" (Some p),
      flash "Cliente e Oggetto sono obbligatori." "error" st)) as Hm.
  { unfold pratica_modifica. by rewrite Hp, Hpost, Hcheck. }
  by rewrite Hm.
Qed.

Lemma blank_required_field_is_rejected_witness :
  pratica_nuova Sample.e1
    (Sample.post (" " +:+ Sample.nbsp) "Contratto" "ATTIVA" "x") Sample.st3 =
    (RenderTemplate "pratica_form.html" "new" None,
     flash "Cliente e Oggetto sono obbligatori." "error" Sample.st3)
  ∧ pratiche_table
      (pratica_modifica Sample.e1 2
         (Sample.post (" " +:+ Sample.nbsp) "Contratto" "ATTIVA" "x")
         Sample.st3).2
    = pratiche_table Sample.st3.
Proof.
  destruct (blank_required_field_is_rejected Sample.e1
    (Sample.post (" " +:+ Sample.nbsp) "Contratto" "ATTIVA" "x") Sample.st3)
    as [[Hn _] Hm].
  - reflexivity.
  - left. reflexivity.
  - split; [exact Hn|].
    destruct (query_get 2 Sample.st3) as [p|] eqn:Hp.
    + exact (proj1 (proj2 (Hm 2 p Hp))).
    + vm_compute in Hp. discriminate Hp.
Defined.

(* ===================================================================== *)
(** ** The stored status *)
(* ===================================================================== *)

(** C4.  In a reachable state every stored status is one of NUOVA, ATTIVA,
    CHIUSA.  A successful create stores the upper-cased status input when
    that is one of the three and NUOVA otherwise; a successful update
    stores the upper-cased status input when that is one of the three and
    the status the row had otherwise.  A missing or empty input counts as
    not one of the three. *)
Theorem stored_stato_is_valid_with_fallback
    (e : env) (req : request) (st : state) (Hreach : reachable st) :
  (∀ k p, query_get k st = Some p → stato p ∈ STATI)
  ∧ (∀ s st', pratica_nuova e req st = (Redirect "pratiche" s, st') →
      ∃ p, query_get (next_id (pratiche_table st)) st' = Some p
        ∧ stato p ∈ STATI
        ∧ stato p =
            if stato_valido (Py.upper (Py.or_empty (Py.get "stato" (form req))))
            then Py.upper (Py.or_empty (Py.get "stato" (form req)))
            else "NUOVA")
  ∧ (∀ pid old s st',
      query_get pid st = Some old →
      pratica_modifica e pid req st = (Redirect "pratiche" s, st') →
      ∃ p, query_get pid st' = Some p
        ∧ stato p ∈ STATI
        ∧ stato p =
            if stato_valido (Py.upper (Py.or_empty (Py.get "stato" (form req))))
            then Py.upper (Py.or_empty (Py.get "stato" (form req)))
            else stato old).
Proof.
  pose proof (reachable_rows_ok st Hreach) as Hok.
  split; [|split].
  - intros k p Hp. by destruct (Hok k p Hp).
  - intros s st' (u & p & _ & _ & Hp & _ & _ & _ & _ & Hs & _)
      %pratica_nuova_stored.
    exists p. split; [done|]. rewrite Hs. split.
    + apply nuova_stato_valid.
    + apply nuova_stato_fallback.
  - intros pid old s st' Hold Hm.
    apply pratica_modifica_lookup in Hm
      as (u & old' & Hold' & _ & _ & Hp & _); [|by apply rows_ok_keyed].
    assert (old' = old) as -> by congruence.
    destruct (Hok pid old Hold) as [_ Hvalid _ _ _].
    destruct (modified_fields e req u old) as (_ & _ & _ & Hs & _).
    eexists. split; [done|]. rewrite Hs. split.
    + by apply modifica_stato_valid.
    + by apply modifica_stato_fallback.
Qed.

Lemma sample_st3_reachable : reachable Sample.st3.
Proof.
  unfold Sample.st3.
  repeat (eapply reachable_step; [|apply step_nuova]).
  apply rtc_refl.
Qed.

(** The status a successful update of a sample row leaves under its key,
    read off [H], the update part of the theorem on stored statuses. *)
Ltac stato_after_update H pid req s :=
  let old := fresh "old" in
  let Hold := fresh "Hold" in
  destruct (query_get pid Sample.st3) as [old|] eqn:Hold;
  [ destruct (H pid old s (pratica_modifica Sample.e1 pid req Sample.st3).2
                Hold) as (p & Hp & _ & Hs);
    [ run_handler
    | exists p; split; [exact Hp|];
      rewrite Hs; vm_compute in Hold; injection Hold as <-; reflexivity ]
  | vm_compute in Hold; discriminate Hold ].

Lemma stored_stato_is_valid_with_fallback_witness :
  (∃ p, query_get 4
          (pratica_nuova Sample.e1 (Sample.post "Delta" "Atto" "bogus" "")
             Sample.st3).2 = Some p
        ∧ stato p = "NUOVA")
  ∧ (∃ p, query_get 4
          (pratica_nuova Sample.e1 (Sample.post "Delta" "Atto" "chıusa" "")
             Sample.st3).2 = Some p
        ∧ stato p = "CHIUSA")
  ∧ (∃ p, query_get 3
          (pratica_modifica Sample.e1 3 (Sample.post "Gamma" "Ricorso" "bogus" "")
             Sample.st3).2 = Some p
        ∧ stato p = "ATTIVA")
  ∧ (∃ p, query_get 3
          (pratica_modifica Sample.e1 3 (Sample.post "Gamma" "Ricorso" "Chiusa" "")
             Sample.st3).2 = Some p
        ∧ stato p = "CHIUSA")
  ∧ (∃ p, query_get 1
          (pratica_modifica Sample.e1 1 (Sample.post "Acme" "Contratto" "attiva" "")
             Sample.st3).2 = Some p
        ∧ stato p = "ATTIVA").
Proof.
  destruct (stored_stato_is_valid_with_fallback Sample.e1
    (Sample.post "Delta" "Atto" "bogus" "") Sample.st3 sample_st3_reachable)
    as (_ & Hn1 & _).
  destruct (stored_stato_is_valid_with_fallback Sample.e1
    (Sample.post "Delta" "Atto" "chıusa" "") Sample.st3 sample_st3_reachable)
    as (_ & Hn2 & _).
  destruct (stored_stato_is_valid_with_fallback Sample.e1
    (Sample.post "Gamma" "Ricorso" "bogus" "") Sample.st3 sample_st3_reachable)
    as (_ & _ & Hm1).
  destruct (stored_stato_is_valid_with_fallback Sample.e1
    (Sample.post "Gamma" "Ricorso" "Chiusa" "") Sample.st3 sample_st3_reachable)
    as (_ & _ & Hm2).
  destruct (stored_stato_is_valid_with_fallback Sample.e1
    (Sample.post "Acme" "Contratto" "attiva" "") Sample.st3 sample_st3_reachable)
    as (_ & _ & Hm3).
  split; [|split; [|split; [|split]]].
  - destruct (Hn1 "NUOVA"
      (pratica_nuova Sample.e1 (Sample.post "Delta" "Atto" "bogus" "")
         Sample.st3).2) as (p & Hp & _ & Hs); [run_handler|].
    exists p. split; [exact Hp | exact Hs].
  - destruct (Hn2 "CHIUSA"
      (pratica_nuova Sample.e1 (Sample.post "Delta" "Atto" "chıusa" "")
         Sample.st3).2) as (p & Hp & _ & Hs); [run_handler|].
    exists p. split; [exact Hp | exact Hs].
  - stato_after_update Hm1 3 (Sample.post "Gamma" "Ricorso" "bogus" "") "ATTIVA".
  - stato_after_update Hm2 3 (Sample.post "Gamma" "Ricorso" "Chiusa" "") "CHIUSA".
  - stato_after_update Hm3 1 (Sample.post "Acme" "Contratto" "attiva" "") "ATTIVA".
Defined.

(* ===================================================================== *)
(** ** Editing a practice *)
(* ===================================================================== *)

Section modifica.

Implicit Types (e : env) (req : request) (st : state) (p : Practice).

(** Everything a successful [pratica_modifica] does, in one place. *)
Lemma pratica_modifica_effect e pid req st s st' :
  keyed st →
  pratica_modifica e pid req st = (Redirect "pratiche" s, st') →
  ∃ username old p,
    query_get pid st = Some old
    ∧ query_get pid st' = Some p
    ∧ (∀ k, k ≠ pid → query_get k st' = query_get k st)
    ∧ keyed st'
    ∧ current_user e = Some username
    ∧ id p = id old
    ∧ cliente p = form_cliente req
    ∧ oggetto p = form_oggetto req
    ∧ stato p = s
    ∧ data_apertura p = data_apertura old
    ∧ data_chiusura p =
        (if decide (s = "CHIUSA")
         then match data_chiusura old with
              | Some d => Some d
              | None => Some (today e)
              end
         else None)
    ∧ note p = Some (form_note req)
    ∧ updated_at p = utcnow e
    ∧ updated_by p = Some username
    ∧ created_at p = created_at old
    ∧ created_by p = created_by old.
Proof.
  intros Hk Hm.
  destruct (pratica_modifica_lookup _ _ _ _ _ _ Hk Hm)
    as (u & old & Hold & Hu & -> & Hp & Hframe).
  exists u, old, (modified e req u old).
  destruct (modified_fields e req u old)
    as (Hid & ? & ? & ? & ? & ? & ? & ? & ? & ? & ?).
  split; [done|]. split; [done|]. split; [done|]. split.
  { intros k q Hq. destruct (decide (k = pid)) as [->|Hne].
    - change (query_get pid st' = Some q) in Hq.
      rewrite Hp in Hq. injection Hq as <-.
      rewrite Hid. by apply (Hk pid old).
    - apply (Hk k q).
      change (query_get k st = Some q). by rewrite <- Hframe. }
  repeat split; done.
Qed.

(** After a successful update the row has a closing date exactly when it
    is closed, whatever it held before. *)
Lemma pratica_modifica_chiusura_iff e pid req st s st' :
  keyed st →
  pratica_modifica e pid req st = (Redirect "pratiche" s, st') →
  ∃ p, query_get pid st' = Some p
    ∧ (data_chiusura p ≠ None ↔ stato p = "CHIUSA").
Proof.
  intros Hk Hm.
  destruct (pratica_modifica_effect _ _ _ _ _ _ Hk Hm)
    as (u & old & p & _ & Hp & _ & _ & _ & _ & _ & _ & Hs & _ & Hdc & _).
  exists p. split; [done|]. rewrite Hdc, Hs.
  case_decide; [|by split].
  split; [done|]. by destruct (data_chiusura old).
Qed.

End modifica.

(** C5.  A successful update with status CHIUSA of a row that has a
    closing date keeps that date; so after two successive updates with
    status CHIUSA the row has the closing date it had after the first. *)
Theorem chiusa_again_keeps_data_chiusura
    (pid : Z) (st : state) (Hk : keyed st) :
  (∀ e req old d st1,
     query_get pid st = Some old →
     data_chiusura old = Some d →
     pratica_modifica e pid req st = (Redirect "pratiche" "CHIUSA", st1) →
     ∃ p1, query_get pid st1 = Some p1
       ∧ stato p1 = "CHIUSA" ∧ data_chiusura p1 = Some d)
  ∧ (∀ e1 e2 req1 req2 st1 st2,
     pratica_modifica e1 pid req1 st = (Redirect "pratiche" "CHIUSA", st1) →
     pratica_modifica e2 pid req2 st1 = (Redirect "pratiche" "CHIUSA", st2) →
     ∃ p1 p2 d, query_get pid st1 = Some p1 ∧ query_get pid st2 = Some p2
       ∧ data_chiusura p1 = Some d ∧ data_chiusura p2 = Some d).
Proof.
  split.
  - intros e req old d st1 Hold Hd Hm.
    destruct (pratica_modifica_effect _ _ _ _ _ _ Hk Hm)
      as (u & old' & p & Hold' & Hp & _ & _ & _ & _ & _ & _ & Hs & _ & Hdc & _).
    assert (old' = old) as -> by congruence.
    exists p. rewrite Hdc, Hd. done.
  - intros e1 e2 req1 req2 st1 st2 H1 H2.
    destruct (pratica_modifica_effect _ _ _ _ _ _ Hk H1)
      as (u1 & old & p1 & _ & Hp1 & _ & Hk1 & _ & _ & _ & _ & _ & _ & Hd1 & _).
    destruct (pratica_modifica_effect _ _ _ _ _ _ Hk1 H2)
      as (u2 & p1' & p2 & Hp1' & Hp2 & _ & _ & _ & _ & _ & _ & _ & _ & Hd2 & _).
    assert (p1' = p1) as -> by congruence.
    simpl in Hd1, Hd2.
    destruct (data_chiusura old) as [d|].
    + exists p1, p2, d. rewrite Hd2, Hd1. done.
    + exists p1, p2, (today e1). rewrite Hd2, Hd1. done.
Qed.

Lemma sample_st3_keyed : keyed Sample.st3.
Proof. apply reachable_keyed, sample_st3_reachable. Qed.

Lemma chiusa_again_keeps_data_chiusura_witness :
  ∃ p1 p2 d,
    query_get 3
      (pratica_modifica Sample.e1 3 (Sample.post "Gamma" "Ricorso" "chiusa" "")
         Sample.st3).2 = Some p1
    ∧ query_get 3
        (pratica_modifica Sample.e2 3 (Sample.post "Gamma" "Ricorso" "" "")
          (pratica_modifica Sample.e1 3
             (Sample.post "Gamma" "Ricorso" "chiusa" "") Sample.st3).2).2
      = Some p2
    ∧ data_chiusura p1 = Some d ∧ data_chiusura p2 = Some d.
Proof.
  destruct (chiusa_again_keeps_data_chiusura 3 Sample.st3 sample_st3_keyed)
    as [_ H].
  apply (H Sample.e1 Sample.e2
    (Sample.post "Gamma" "Ricorso" "chiusa" "")
    (Sample.post "Gamma" "Ricorso" "" "")
    (pratica_modifica Sample.e1 3
       (Sample.post "Gamma" "Ricorso" "chiusa" "") Sample.st3).2
    (pratica_modifica Sample.e2 3 (Sample.post "Gamma" "Ricorso" "" "")
       (pratica_modifica Sample.e1 3
          (Sample.post "Gamma" "Ricorso" "chiusa" "") Sample.st3).2).2);
    run_handler.
Defined.

(** C6.  A successful update to a status other than CHIUSA leaves the row
    without a closing date, whatever it had before; so after the updates
    CHIUSA, then a status other than CHIUSA (ATTIVA for one), then CHIUSA
    again, the closing date is the day of the third update. *)
Theorem reopening_clears_data_chiusura
    (pid : Z) (st : state) (Hk : keyed st) :
  (∀ e req s st1,
     pratica_modifica e pid req st = (Redirect "pratiche" s, st1) →
     s ≠ "CHIUSA" →
     ∃ p1, query_get pid st1 = Some p1
       ∧ stato p1 = s ∧ data_chiusura p1 = None)
  ∧ (∀ e1 e2 e3 req1 req2 req3 s2 st1 st2 st3,
     pratica_modifica e1 pid req1 st = (Redirect "pratiche" "CHIUSA", st1) →
     pratica_modifica e2 pid req2 st1 = (Redirect "pratiche" s2, st2) →
     s2 ≠ "CHIUSA" →
     pratica_modifica e3 pid req3 st2 = (Redirect "pratiche" "CHIUSA", st3) →
     ∃ p3, query_get pid st3 = Some p3
       ∧ stato p3 = "CHIUSA" ∧ data_chiusura p3 = Some (today e3)).
Proof.
  assert (∀ st0 e req s st1, keyed st0 →
     pratica_modifica e pid req st0 = (Redirect "pratiche" s, st1) →
     s ≠ "CHIUSA" →
     ∃ p1, query_get pid st1 = Some p1
       ∧ stato p1 = s ∧ data_chiusura p1 = None) as Hclear.
  { intros st0 e req s st1 Hk0 Hm Hs.
    destruct (pratica_modifica_effect _ _ _ _ _ _ Hk0 Hm)
      as (u & old & p & _ & Hp & _ & _ & _ & _ & _ & _ & Hst & _ & Hdc & _).
    exists p. rewrite Hdc. by case_decide. }
  split; [by eauto|].
  intros e1 e2 e3 req1 req2 req3 s2 st1 st2 st3 H1 H2 Hs2 H3.
  destruct (pratica_modifica_effect _ _ _ _ _ _ Hk H1)
    as (_ & _ & _ & _ & _ & _ & Hk1 & _).
  destruct (Hclear _ _ _ _ _ Hk1 H2 Hs2) as (p2 & Hp2 & _ & Hd2).
  destruct (pratica_modifica_effect _ _ _ _ _ _ Hk1 H2)
    as (_ & _ & _ & _ & _ & _ & Hk2 & _).
  destruct (pratica_modifica_effect _ _ _ _ _ _ Hk2 H3)
    as (u3 & p2' & p3 & Hp2' & Hp3 & _ & _ & _ & _ & _ & _ & Hst & _ & Hd3 & _).
  assert (p2' = p2) as -> by congruence.
  exists p3. rewrite Hd3, Hd2. done.
Qed.

Lemma reopening_clears_data_chiusura_witness :
  ∃ p3,
    query_get 3
      (pratica_modifica Sample.e3 3 (Sample.post "Gamma" "Ricorso" "Chiusa" "")
        (pratica_modifica Sample.e2 3 (Sample.post "Gamma" "Ricorso" "attiva" "")
          (pratica_modifica Sample.e1 3
             (Sample.post "Gamma" "Ricorso" "chiusa" "") Sample.st3).2).2).2
      = Some p3
    ∧ stato p3 = "CHIUSA" ∧ data_chiusura p3 = Some Sample.d3.
Proof.
  destruct (reopening_clears_data_chiusura 3 Sample.st3 sample_st3_keyed)
    as [_ H].
  apply (H Sample.e1 Sample.e2 Sample.e3
    (Sample.post "Gamma" "Ricorso" "chiusa" "")
    (Sample.post "Gamma" "Ricorso" "attiva" "")
    (Sample.post "Gamma" "Ricorso" "Chiusa" "") "ATTIVA"
    (pratica_modifica Sample.e1 3
       (Sample.post "Gamma" "Ricorso" "chiusa" "") Sample.st3).2
    (pratica_modifica Sample.e2 3 (Sample.post "Gamma" "Ricorso" "attiva" "")
       (pratica_modifica Sample.e1 3
          (Sample.post "Gamma" "Ricorso" "chiusa" "") Sample.st3).2).2);
    [run_handler | run_handler | discriminate | run_handler].
Defined.

(** C8.  A successful update keeps [id], [data_apertura], [created_at] and
    [created_by] of the row, sets [updated_at] to the current time and
    [updated_by] to the name of the user who is logged in; the row stays
    under its key and no other row changes. *)
Theorem pratica_modifica_frame
    (e : env) (pid : Z) (req : request) (st st' : state) (s : string)
    (Hk : keyed st)
    (Hm : pratica_modifica e pid req st = (Redirect "pratiche" s, st')) :
  ∃ username old p,
    query_get pid st = Some old
    ∧ query_get pid st' = Some p
    ∧ id p = id old
    ∧ data_apertura p = data_apertura old
    ∧ created_at p = created_at old
    ∧ created_by p = created_by old
    ∧ updated_at p = utcnow e
    ∧ current_user e = Some username
    ∧ updated_by p = Some username
    ∧ ∀ k, k ≠ pid → query_get k st' = query_get k st.
Proof.
  destruct (pratica_modifica_effect _ _ _ _ _ _ Hk Hm)
    as (u & old & p & ? & ? & ? & _ & ? & ? & _ & _ & _ & ? & _ & _ & ? & ?
        & ? & ?).
  exists u, old, p. repeat split; done.
Qed.

Lemma pratica_modifica_frame_witness :
  ∃ username old p,
    query_get 2 Sample.st3 = Some old
    ∧ query_get 2
        (pratica_modifica Sample.e3 2 (Sample.post "Beta" "Parere" "attiva" "")
           Sample.st3).2 = Some p
    ∧ id p = id old
    ∧ data_apertura p = data_apertura old
    ∧ created_at p = created_at old
    ∧ created_by p = created_by old
    ∧ updated_at p = utcnow Sample.e3
    ∧ current_user Sample.e3 = Some username
    ∧ updated_by p = Some username
    ∧ ∀ k, k ≠ 2 →
        query_get k
          (pratica_modifica Sample.e3 2
             (Sample.post "Beta" "Parere" "attiva" "") Sample.st3).2
        = query_get k Sample.st3.
Proof.
  apply (pratica_modifica_frame Sample.e3 2
    (Sample.post "Beta" "Parere" "attiva" "") Sample.st3 _ "ATTIVA"
    sample_st3_keyed).
  run_handler.
Defined.

(* ===================================================================== *)
(** ** Deleting a practice *)
(* ===================================================================== *)

(** C10.  Deleting a stored row removes the row under that key and leaves
    the row under every other key as it was. *)
Theorem pratica_elimina_removes_only_that_row
    (pid : Z) (st : state) (old : Practice)
    (Hk : keyed st) (Hold : query_get pid st = Some old) :
  (pratica_elimina pid st).1 = Redirect "pratiche" (stato old)
  ∧ pratiche_table (pratica_elimina pid st).2 = delete pid (pratiche_table st)
  ∧ query_get pid (pratica_elimina pid st).2 = None
  ∧ ∀ k, k ≠ pid →
      query_get k (pratica_elimina pid st).2 = query_get k st.
Proof.
  unfold pratica_elimina. rewrite Hold.
  unfold query_get, flash, delete_row. cbn [fst snd pratiche_table].
  rewrite (Hk pid old Hold).
  split; [done|]. split; [done|]. split.
  - apply lookup_delete_eq.
  - intros k Hne. by apply lookup_delete_ne.
Qed.

Lemma pratica_elimina_removes_only_that_row_witness :
  query_get 2 (pratica_elimina 2 Sample.st3).2 = None
  ∧ ∀ k, k ≠ 2 →
      query_get k (pratica_elimina 2 Sample.st3).2 = query_get k Sample.st3.
Proof.
  destruct (query_get 2 Sample.st3) as [old|] eqn:Hold.
  - exact (proj2 (proj2 (pratica_elimina_removes_only_that_row 2 Sample.st3
      old sample_st3_keyed Hold))).
  - vm_compute in Hold. discriminate Hold.
Defined.

(* ===================================================================== *)
(** ** Listing by status *)
(* ===================================================================== *)

Global Instance updated_at_desc_total : Total updated_at_desc.
Proof. intros p q. unfold updated_at_desc. lia. Qed.

Global Instance updated_at_desc_trans : Transitive updated_at_desc.
Proof. intros p q r. unfold updated_at_desc. lia. Qed.

Section listing.

Implicit Types (req : request) (st : state) (p : Practice).

(** On times within range the sort key orders as the calendar does. *)
Lemma datetime_key_chronological (a b : datetime) :
  datetime_in_range a → datetime_in_range b →
  (datetime_key a ≤ datetime_key b)%N ↔ not_later a b.
Proof.
  destruct a as [[ya ma da] ha mia sa ua], b as [[yb mb db] hb mib sb ub].
  unfold datetime_in_range, not_later, datetime_key, date_key. simpl.
  lia.
Qed.

Lemma query_filter_by_stato_elem s st p :
  p ∈ query_filter_by_stato s st
  ↔ (∃ k, query_get k st = Some p) ∧ stato p = s.
Proof.
  unfold query_filter_by_stato, query_get.
  rewrite merge_sort_Permutation, list_elem_of_filter, list_elem_of_fmap.
  split.
  - intros [Hs ([k q] & -> & Hq%elem_of_map_to_list)]. eauto.
  - intros [[k Hk] Hs]. split; [done|].
    exists (k, p). split; [done|]. by apply elem_of_map_to_list.
Qed.

Lemma query_filter_by_stato_sorted s st :
  StronglySorted updated_at_desc (query_filter_by_stato s st).
Proof. apply (StronglySorted_merge_sort _). Qed.

Lemma api_stato_spec req :
  api_stato req ∈ STATI
  ∧ api_stato req =
      match Py.get "stato" (args req) with
      | Some v => if stato_valido (Py.upper v) then Py.upper v else "ATTIVA"
      | None => "ATTIVA"
      end.
Proof.
  unfold api_stato, Py.get_default.
  destruct (Py.get "stato" (args req)) as [v|]; simpl.
  - destruct (stato_valido (Py.upper v)) eqn:Hv; simpl.
    + split; [by apply stato_valido_elem | done].
    + split; [apply STATI_cases; auto | done].
  - split; [apply STATI_cases; auto | done].
Qed.

Lemma api_stato_ignores_case req req' :
  Py.same_ignoring_case
    (Py.get_default "stato" (args req) "ATTIVA")
    (Py.get_default "stato" (args req') "ATTIVA") = true →
  api_stato req' = api_stato req.
Proof.
  intros H%same_ignoring_case_upper. unfold api_stato. by rewrite H.
Qed.

End listing.

(** C7.  [api_pratiche] leaves the table alone and answers with the JSON
    of exactly the rows whose status is the requested one, each once, the
    most recently updated first.  The requested status is the upper-cased
    query parameter [stato] when that is NUOVA, ATTIVA or CHIUSA, and
    ATTIVA when the parameter is missing or anything else.  The case of
    the letters does not matter: a parameter that spells one of the three
    statuses in any mix of upper and lower case selects that status, and
    two requests whose parameters differ only in the case of letters get
    the same answer. *)
Theorem api_pratiche_lists_by_stato (req : request) (st : state) :
  api_pratiche req st = (Jsonify (to_dict <$> api_items req st), st)
  ∧ (∀ p, p ∈ api_items req st
          ↔ (∃ k, query_get k st = Some p) ∧ stato p = api_stato req)
  ∧ api_items req st
      ≡ₚ filter (λ p, stato p = api_stato req)
           (map_to_list (pratiche_table st)).*2
  ∧ StronglySorted updated_at_desc (api_items req st)
  ∧ api_stato req ∈ STATI
  ∧ api_stato req =
      match Py.get "stato" (args req) with
      | Some v => if stato_valido (Py.upper v) then Py.upper v else "ATTIVA"
      | None => "ATTIVA"
      end
  ∧ (∀ v s,
      Py.get "stato" (args req) = Some v → s ∈ STATI →
      Py.same_ignoring_case v s = true →
      api_stato req = s)
  ∧ ∀ req',
      Py.same_ignoring_case
        (Py.get_default "stato" (args req) "ATTIVA")
        (Py.get_default "stato" (args req') "ATTIVA") = true →
      api_pratiche req' st = api_pratiche req st.
Proof.
  split; [done|].
  split; [intros p; apply query_filter_by_stato_elem|].
  split; [apply merge_sort_Permutation|].
  split; [apply query_filter_by_stato_sorted|].
  split; [apply api_stato_spec|].
  split; [apply api_stato_spec|].
  split.
  - intros v s Hv Hs Hsame.
    rewrite (proj2 (api_stato_spec req)), Hv.
    rewrite (same_ignoring_case_upper _ _ Hsame), (upper_STATI _ Hs).
    by rewrite (proj2 (stato_valido_elem s) Hs).
  - intros req' H. unfold api_pratiche, api_items.
    by rewrite (api_stato_ignores_case _ _ H).
Qed.

Lemma api_pratiche_lists_by_stato_witness :
  api_stato (get_with_stato "cHiUsA") = "CHIUSA"
  ∧ api_pratiche (get_with_stato "Attiva") Sample.st4
    = api_pratiche (get_with_stato "aTTIVA") Sample.st4
  ∧ StronglySorted updated_at_desc
      (api_items (get_with_stato "aTTIVA") Sample.st4)
  ∧ id <$> api_items (get_with_stato "aTTIVA") Sample.st4 = [1; 3]
  ∧ updated_at <$> api_items (get_with_stato "aTTIVA") Sample.st4
    = [DateTime (Date 2024 6 1) 7 0 0 0; DateTime (Date 2024 5 3) 8 15 59 0].
Proof.
  destruct (api_pratiche_lists_by_stato (get_with_stato "cHiUsA") Sample.st4)
    as (_ & _ & _ & _ & _ & _ & Hcase & _).
  destruct (api_pratiche_lists_by_stato (get_with_stato "aTTIVA") Sample.st4)
    as (_ & _ & _ & Hsorted & _ & _ & _ & Hsame).
  split; [|split; [|split; [|split]]].
  - apply (Hcase "cHiUsA" "CHIUSA"); [reflexivity| |reflexivity].
    apply STATI_cases. right. right. reflexivity.
  - apply Hsame. reflexivity.
  - exact Hsorted.
  - vm_compute. reflexivity.
  - vm_compute. reflexivity.
Defined.

Example api_pratiche_sample :
  (api_pratiche (Sample.list_of "Chiusa") Sample.st3).1
  = Jsonify
      [[("id", JInt 2); ("cliente", JStr "Beta"); ("oggetto", JStr "Parere");
        ("stato", JStr "CHIUSA"); ("data_apertura", JStr "2024-05-02");
        ("data_chiusura", JNull); ("note", JStr "urgente");
        ("updated_at", JStr "2024-05-02T10:30:00.000250");
        ("updated_by", JStr "collab")]].
Proof. by vm_compute. Qed.

(* ===================================================================== *)
(** ** The JSON of a row *)
(* ===================================================================== *)

Section json.

Lemma is_digit_digit n : Iso.is_digit (Iso.digit n) = true.
Proof.
  unfold Iso.digit.
  pose proof (N.mod_upper_bound n 10 ltac:(done)) as Hlt.
  revert Hlt. generalize (n `mod` 10)%N. intros k Hlt.
  assert (k = 0 ∨ k = 1 ∨ k = 2 ∨ k = 3 ∨ k = 4 ∨ k = 5 ∨ k = 6 ∨ k = 7
          ∨ k = 8 ∨ k = 9)%N as Hk by lia.
  destruct Hk as [->|[->|[->|[->|[->|[->|[->|[->|[->| ->]]]]]]]]];
    reflexivity.
Qed.

Lemma date_isoformat_iso d : Iso.is_iso_date (Iso.date_isoformat d) = true.
Proof.
  unfold Iso.is_iso_date, Iso.date_isoformat.
  rewrite String.list_ascii_of_string_of_list_ascii.
  unfold Iso.date_chars, Iso.pad4, Iso.pad2. simpl.
  by rewrite !is_digit_digit.
Qed.

Lemma datetime_isoformat_iso t :
  Iso.is_iso_datetime (Iso.datetime_isoformat t) = true.
Proof.
  unfold Iso.is_iso_datetime, Iso.datetime_isoformat.
  rewrite String.list_ascii_of_string_of_list_ascii.
  unfold Iso.time_chars, Iso.date_chars, Iso.pad6, Iso.pad4, Iso.pad2.
  destruct (microsecond t =? 0)%N; simpl; by rewrite !is_digit_digit.
Qed.

Lemma or_empty_default x : Py.or_empty x = default "" x.
Proof. by destruct x as [[|c s]|]. Qed.

Lemma digit_value_digit n : Iso.digit_value (Iso.digit n) = (n `mod` 10)%N.
Proof.
  unfold Iso.digit_value, Iso.digit.
  rewrite N_ascii_embedding by lia_div. lia_div.
Qed.

Lemma number_pad2 n : (n < 100)%N → Iso.number (Iso.pad2 n) = n.
Proof.
  intros Hn. unfold Iso.number, Iso.pad2. cbn [foldl].
  rewrite !digit_value_digit. lia_div.
Qed.

Lemma number_pad4 n : (n < 10000)%N → Iso.number (Iso.pad4 n) = n.
Proof.
  intros Hn. unfold Iso.number, Iso.pad4. cbn [foldl].
  rewrite !digit_value_digit. lia_div.
Qed.

Lemma number_pad6 n : (n < 1000000)%N → Iso.number (Iso.pad6 n) = n.
Proof.
  intros Hn. unfold Iso.number, Iso.pad6. cbn [foldl].
  rewrite !digit_value_digit. lia_div.
Qed.

Lemma parse_date_chars_date_chars d :
  date_in_range d → Iso.parse_date_chars (Iso.date_chars d) = Some d.
Proof.
  intros (Hy & Hm & Hd). unfold Iso.parse_date_chars.
  pose proof (date_isoformat_iso d) as Hshape.
  unfold Iso.is_iso_date, Iso.date_isoformat in Hshape.
  rewrite String.list_ascii_of_string_of_list_ascii in Hshape.
  rewrite Hshape. unfold Iso.date_chars, Iso.pad4, Iso.pad2. cbn [app].
  change [Iso.digit (year d / 1000); Iso.digit (year d / 100);
          Iso.digit (year d / 10); Iso.digit (year d)]
    with (Iso.pad4 (year d)).
  change [Iso.digit (month d / 10); Iso.digit (month d)]
    with (Iso.pad2 (month d)).
  change [Iso.digit (day d / 10); Iso.digit (day d)]
    with (Iso.pad2 (day d)).
  rewrite number_pad4, !number_pad2 by lia. by destruct d.
Qed.

(** The ISO text of a date writes that date and no other. *)
Lemma parse_date_isoformat d :
  date_in_range d → Iso.parse_date (Iso.date_isoformat d) = Some d.
Proof.
  intros Hd. unfold Iso.parse_date, Iso.date_isoformat.
  rewrite String.list_ascii_of_string_of_list_ascii.
  by apply parse_date_chars_date_chars.
Qed.

(** The ISO text of a time writes that time and no other. *)
Lemma parse_datetime_isoformat t :
  date_in_range (dt_date t) → datetime_in_range t →
  Iso.parse_datetime (Iso.datetime_isoformat t) = Some t.
Proof.
  intros Hd (_ & _ & Hh & Hm & Hs & Hu).
  unfold Iso.parse_datetime, Iso.datetime_isoformat.
  rewrite String.list_ascii_of_string_of_list_ascii.
  rewrite (take_app_length' (Iso.date_chars (dt_date t)) _ 10) by done.
  rewrite (drop_app_length' (Iso.date_chars (dt_date t)) _ 10) by done.
  rewrite (parse_date_chars_date_chars _ Hd). cbn [app].
  replace (Iso.is_char "T" "T"%char) with true by done.
  unfold Iso.parse_time_chars, Iso.time_chars, Iso.pad2, Iso.pad6.
  destruct (microsecond t =? 0)%N eqn:Hz;
    cbn [app take drop Iso.matches Iso.time_shape Iso.fraction_shape];
    rewrite !is_digit_digit;
    replace (Iso.is_char ":" ":"%char) with true by done;
    try replace (Iso.is_char "." "."%char) with true by done;
    cbn [andb];
    change [Iso.digit (hour t / 10); Iso.digit (hour t)]
      with (Iso.pad2 (hour t));
    change [Iso.digit (minute t / 10); Iso.digit (minute t)]
      with (Iso.pad2 (minute t));
    change [Iso.digit (second t / 10); Iso.digit (second t)]
      with (Iso.pad2 (second t));
    rewrite !number_pad2 by lia.
  - apply N.eqb_eq in Hz. destruct t; simpl in *. by subst.
  - change [Iso.digit (microsecond t / 100000);
            Iso.digit (microsecond t / 10000);
            Iso.digit (microsecond t / 1000);
            Iso.digit (microsecond t / 100);
            Iso.digit (microsecond t / 10); Iso.digit (microsecond t)]
      with (Iso.pad6 (microsecond t)).
    rewrite number_pad6 by lia. by destruct t.
Qed.

End json.

(** C9.  [to_dict] gives the nine entries id, cliente, oggetto, stato,
    data_apertura, data_chiusura, note, updated_at, updated_by, in this
    order and no other.  data_apertura is the ISO text of the row's
    opening date; data_chiusura is the ISO text of its closing date, and
    null when it has none; updated_at is the ISO text of its time of
    update; note and updated_by are the row's texts, the empty text when
    the row has none.  The ISO texts have the shape YYYY-MM-DD and
    YYYY-MM-DDTHH:MM:SS[.ffffff], and reading one back gives the date or
    time it was made from. *)
Theorem to_dict_fields (p : Practice) :
  to_dict p =
    [ ("id", JInt (id p));
      ("cliente", JStr (cliente p));
      ("oggetto", JStr (oggetto p));
      ("stato", JStr (stato p));
      ("data_apertura", JStr (Iso.date_isoformat (data_apertura p)));
      ("data_chiusura",
       match data_chiusura p with
       | Some d => JStr (Iso.date_isoformat d)
       | None => JNull
       end);
      ("note", JStr (default "" (note p)));
      ("updated_at", JStr (Iso.datetime_isoformat (updated_at p)));
      ("updated_by", JStr (default "" (updated_by p))) ]
  ∧ (∀ d, Iso.is_iso_date (Iso.date_isoformat d) = true)
  ∧ (∀ t, Iso.is_iso_datetime (Iso.datetime_isoformat t) = true)
  ∧ (∀ d, date_in_range d → Iso.parse_date (Iso.date_isoformat d) = Some d)
  ∧ (∀ t, date_in_range (dt_date t) → datetime_in_range t →
       Iso.parse_datetime (Iso.datetime_isoformat t) = Some t).
Proof.
  split.
  { unfold to_dict. rewrite !or_empty_default. by destruct (data_chiusura p). }
  split; [apply date_isoformat_iso|].
  split; [apply datetime_isoformat_iso|].
  split; [apply parse_date_isoformat|apply parse_datetime_isoformat].
Qed.

Lemma to_dict_fields_witness :
  ∃ p, query_get 1 Sample.st4 = Some p
    ∧ to_dict p =
        [ ("id", JInt 1); ("cliente", JStr "Acme");
          ("oggetto", JStr "Contratto"); ("stato", JStr "ATTIVA");
          ("data_apertura", JStr "2024-05-01"); ("data_chiusura", JNull);
          ("note", JStr ""); ("updated_at", JStr "2024-06-01T07:00:00");
          ("updated_by", JStr "collab") ]
    ∧ Iso.parse_date "2024-05-01" = Some (Date 2024 5 1).
Proof.
  destruct (query_get 1 Sample.st4) as [p|] eqn:Hp.
  - exists p. split; [reflexivity|].
    destruct (to_dict_fields p) as (Hdict & _ & _ & Hparse & _).
    split.
    + rewrite Hdict. vm_compute in Hp. injection Hp as <-. reflexivity.
    + apply (Hparse (Date 2024 5 1)). vm_compute. intuition discriminate.
  - vm_compute in Hp. discriminate Hp.
Defined.

(* ===================================================================== *)
(** ** Stripping twice *)
(* ===================================================================== *)

Section strip.

Implicit Types (s t : string) (l m : list N).

Lemma lstrip_chars_idemp l :
  Py.lstrip_chars (Py.lstrip_chars l) = Py.lstrip_chars l.
Proof.
  induction l as [|c l IH]; simpl; [done|].
  destruct (Py.isspace c) eqn:Hc; [done|]. simpl. by rewrite Hc.
Qed.

Lemma lstrip_chars_app l m :
  Py.lstrip_chars (l ++ m)
  = match Py.lstrip_chars l with [] => Py.lstrip_chars m | x => x ++ m end.
Proof.
  induction l as [|c l IH]; simpl; [done|].
  destruct (Py.isspace c); [done|]. done.
Qed.

(** [rstrip] from the left: a character stays unless it is white space
    and nothing stays after it. *)
Lemma rstrip_chars_cons c l :
  Py.rstrip_chars (c :: l)
  = match Py.rstrip_chars l with
    | [] => if Py.isspace c then [] else [c]
    | x => c :: x
    end.
Proof.
  unfold Py.rstrip_chars. rewrite reverse_cons, lstrip_chars_app.
  destruct (Py.lstrip_chars (reverse l)) as [|d x] eqn:Hl.
  - cbn. by destruct (Py.isspace c).
  - rewrite reverse_app, reverse_singleton. cbn [app].
    destruct (reverse (d :: x)) eqn:Hr; [|done].
    apply (f_equal reverse) in Hr. rewrite reverse_involutive in Hr. done.
Qed.

Lemma rstrip_chars_idemp l :
  Py.rstrip_chars (Py.rstrip_chars l) = Py.rstrip_chars l.
Proof.
  unfold Py.rstrip_chars. by rewrite reverse_involutive, lstrip_chars_idemp.
Qed.

(** Taking white space off the end does not uncover white space at the
    start. *)
Lemma lstrip_rstrip_chars l :
  Py.lstrip_chars l = l →
  Py.lstrip_chars (Py.rstrip_chars l) = Py.rstrip_chars l.
Proof.
  destruct l as [|c l]; [done|].
  simpl. destruct (Py.isspace c) eqn:Hc.
  - intros H. exfalso.
    assert (length (Py.lstrip_chars l) ≤ length l)%nat as Hlen.
    { clear. induction l as [|d l IH]; simpl; [done|].
      destruct (Py.isspace d); simpl; lia. }
    rewrite H in Hlen. simpl in Hlen. lia.
  - intros _. rewrite rstrip_chars_cons.
    destruct (Py.rstrip_chars l); rewrite ?Hc; simpl; by rewrite Hc.
Qed.

Lemma strip_chars_idemp l :
  Py.rstrip_chars (Py.lstrip_chars (Py.rstrip_chars (Py.lstrip_chars l)))
  = Py.rstrip_chars (Py.lstrip_chars l).
Proof.
  rewrite (lstrip_rstrip_chars (Py.lstrip_chars l))
    by apply lstrip_chars_idemp.
  apply rstrip_chars_idemp.
Qed.

Lemma lstrip_chars_Forall (P : N → Prop) l :
  Forall P l → Forall P (Py.lstrip_chars l).
Proof.
  induction 1 as [|c l Hc Hl IH]; simpl; [constructor|].
  destruct (Py.isspace c); [done|by constructor].
Qed.

Lemma rstrip_chars_Forall (P : N → Prop) l :
  Forall P l → Forall P (Py.rstrip_chars l).
Proof.
  intros Hl. unfold Py.rstrip_chars.
  by apply Forall_reverse, lstrip_chars_Forall, Forall_reverse.
Qed.

(** Stripping what is stripped changes nothing. *)
Lemma strip_idemp s : Py.strip (Py.strip s) = Py.strip s.
Proof.
  unfold Py.strip. rewrite decode_encode.
  - by rewrite strip_chars_idemp.
  - apply rstrip_chars_Forall, lstrip_chars_Forall, decode_bounded.
Qed.

Lemma strip_empty : Py.strip "" = "".
Proof. done. Qed.

End strip.

(* ===================================================================== *)
(** ** The database URI *)
(* ===================================================================== *)

Section config.

Implicit Types (s t r : string).

Lemma append_cons c s t : String c s +:+ t = String c (s +:+ t).
Proof. done. Qed.

Lemma append_empty t : "" +:+ t = t.
Proof. done. Qed.

Lemma startswith_append s r : PyStr.startswith (s +:+ r) s = true.
Proof.
  induction s as [|c s IH]; [by destruct r|].
  rewrite append_cons. simpl. by rewrite bool_decide_eq_true_2, IH.
Qed.

Lemma skip_append s r : PyStr.skip (String.length s) (s +:+ r) = r.
Proof. induction s as [|c s IH]; [done|]. by rewrite append_cons. Qed.

Lemma startswith_split s t :
  PyStr.startswith s t = true → s = t +:+ PyStr.skip (String.length t) s.
Proof.
  revert s. induction t as [|c t IH]; intros [|d s]; simpl; try done.
  intros [Hc Hs]%andb_prop. apply bool_decide_eq_true in Hc as ->.
  rewrite append_cons. f_equal. by apply IH.
Qed.

Lemma replace_first_unfold old new s :
  PyStr.replace_first old new s
  = if PyStr.startswith s old then new +:+ PyStr.skip (String.length old) s
    else match s with
         | EmptyString => EmptyString
         | String c s' => String c (PyStr.replace_first old new s')
         end.
Proof. by destruct s. Qed.

Lemma replace_first_at_start old new r :
  PyStr.replace_first old new (old +:+ r) = new +:+ r.
Proof.
  by rewrite replace_first_unfold, startswith_append, skip_append.
Qed.

Lemma postgresql_not_postgres r :
  PyStr.startswith ("postgresql://" +:+ r) "postgres://" = false.
Proof. by rewrite !append_cons, append_empty. Qed.

Lemma database_uri_cases environ :
  let url := environ_get environ "DATABASE_URL" "sqlite:///local.db" in
  (PyStr.startswith url "postgres://" = false
   ∧ SQLALCHEMY_DATABASE_URI environ = url)
  ∨ ∃ r, url = "postgres://" +:+ r
      ∧ SQLALCHEMY_DATABASE_URI environ = "postgresql://" +:+ r.
Proof.
  intros url. unfold SQLALCHEMY_DATABASE_URI. fold url.
  destruct (PyStr.startswith url "postgres://") eqn:Hs; [right|by left].
  apply startswith_split in Hs. eexists. split; [exact Hs|].
  rewrite Hs at 1. apply replace_first_at_start.
Qed.

End config.

(** X1.  When DATABASE_URL is [postgres://] followed by some text, the
    database URI is [postgresql://] followed by the same text: only the
    scheme at the start is rewritten, whatever the rest holds. *)
Theorem database_uri_rewrites_scheme
    (environ : gmap string string) (rest : string)
    (Hurl : environ !! "DATABASE_URL" = Some ("postgres://" +:+ rest)) :
  SQLALCHEMY_DATABASE_URI environ = "postgresql://" +:+ rest.
Proof.
  assert (environ_get environ "DATABASE_URL" "sqlite:///local.db"
          = "postgres://" +:+ rest) as Hget.
  { unfold environ_get. by rewrite Hurl. }
  unfold SQLALCHEMY_DATABASE_URI. rewrite Hget.
  by rewrite startswith_append, replace_first_at_start.
Qed.

Lemma database_uri_rewrites_scheme_witness :
  SQLALCHEMY_DATABASE_URI
    {[ "DATABASE_URL" := "postgres://u:postgres://@db.example:5432/app" ]}
  = "postgresql://u:postgres://@db.example:5432/app".
Proof.
  apply (database_uri_rewrites_scheme _ "u:postgres://@db.example:5432/app").
  reflexivity.
Defined.

(** X2.  The database URI never starts with [postgres://]; a DATABASE_URL
    that does not start with it is taken as it is, and without
    DATABASE_URL the URI is [sqlite:///local.db].  Feeding the URI back as
    DATABASE_URL gives the same URI. *)
Theorem database_uri_is_normal (environ : gmap string string) :
  PyStr.startswith (SQLALCHEMY_DATABASE_URI environ) "postgres://" = false
  ∧ (∀ url, environ !! "DATABASE_URL" = Some url →
       PyStr.startswith url "postgres://" = false →
       SQLALCHEMY_DATABASE_URI environ = url)
  ∧ (environ !! "DATABASE_URL" = None →
       SQLALCHEMY_DATABASE_URI environ = "sqlite:///local.db")
  ∧ SQLALCHEMY_DATABASE_URI
      (<["DATABASE_URL" := SQLALCHEMY_DATABASE_URI environ]> environ)
    = SQLALCHEMY_DATABASE_URI environ.
Proof.
  assert (PyStr.startswith (SQLALCHEMY_DATABASE_URI environ) "postgres://"
          = false) as Hnormal.
  { destruct (database_uri_cases environ) as [[Hs ->]|(r & _ & ->)];
      [done | apply postgresql_not_postgres]. }
  split; [done|]. split; [|split].
  - intros url Hurl Hs. unfold SQLALCHEMY_DATABASE_URI, environ_get.
    rewrite Hurl. simpl. by rewrite Hs.
  - intros Hnone. unfold SQLALCHEMY_DATABASE_URI, environ_get.
    by rewrite Hnone.
  - unfold SQLALCHEMY_DATABASE_URI at 1. unfold environ_get.
    rewrite lookup_insert_eq. simpl. by rewrite Hnormal.
Qed.

(* ===================================================================== *)
(** ** Who may pass *)
(* ===================================================================== *)

(** X3.  Whatever the password check does, [verify_password] lets through
    only the names [test] and [collab], and what it returns is the name it
    was given. *)
Theorem verify_password_only_known_names
    (check : string → string → bool) (h1 h2 username password r : string)
    (Hok : verify_password check h1 h2 username password = Some r) :
  r = username ∧ (username = "test" ∨ username = "collab").
Proof.
  unfold verify_password, BASIC_USERS in Hok. simpl in Hok.
  repeat case_decide; simplify_eq/=; try done;
    destruct (check _ _); simplify_eq; auto.
Qed.

Lemma verify_password_only_known_names_witness :
  "collab" = "collab" ∧ ("collab" = "test" ∨ "collab" = "collab").
Proof.
  apply (verify_password_only_known_names
    (λ h p, bool_decide (h = p)) "test123" "collab123" "collab" "collab123").
  reflexivity.
Defined.

(** X4.  If the password check accepts, for each stored hash, exactly the
    password it was made from, then [verify_password] accepts exactly the
    pairs test/test123 and collab/collab123. *)
Theorem verify_password_accepts_exactly
    (check : string → string → bool) (h1 h2 : string)
    (H1 : ∀ p, check h1 p = true ↔ p = "test123")
    (H2 : ∀ p, check h2 p = true ↔ p = "collab123")
    (username password : string) :
  verify_password check h1 h2 username password = Some username
  ↔ (username = "test" ∧ password = "test123")
    ∨ (username = "collab" ∧ password = "collab123").
Proof.
  unfold verify_password, BASIC_USERS. simpl.
  repeat case_decide; subst; simpl.
  - destruct (check h1 password) eqn:Hc.
    + apply H1 in Hc. split; [intros _; by left | done].
    + split; [done|]. intros [[_ Hp]|[? _]]; [|done].
      apply H1 in Hp. congruence.
  - destruct (check h2 password) eqn:Hc.
    + apply H2 in Hc. split; [intros _; by right | done].
    + split; [done|]. intros [[? _]|[_ Hp]]; [done|].
      apply H2 in Hp. congruence.
  - split; [done|]. by intros [[? _]|[? _]].
Qed.

Lemma verify_password_accepts_exactly_witness :
  verify_password (λ h p, bool_decide (h = p)) "test123" "collab123"
    "test" "collab123" ≠ Some "test".
Proof.
  intros H.
  apply (verify_password_accepts_exactly
    (λ h p, bool_decide (h = p)) "test123" "collab123") in H.
  - destruct H as [[_ H]|[H _]]; discriminate H.
  - intros p. rewrite bool_decide_eq_true. split; congruence.
  - intros p. rewrite bool_decide_eq_true. split; congruence.
Defined.

(* ===================================================================== *)
(** ** Logging in *)
(* ===================================================================== *)

Section login.

Implicit Types (environ : gmap string string) (req : request).
Implicit Types (st : Auth.state) (u : Auth.User).

Lemma find_user_Some name pw users u :
  Auth.find_user name pw users = Some u →
  u ∈ users ∧ Auth.username u = name ∧ Auth.password u = pw.
Proof.
  induction users as [|v users IH]; simpl; [done|].
  destruct (bool_decide (Auth.username v = name)
            && bool_decide (Auth.password v = pw)) eqn:Hv.
  - intros [= ->]. apply andb_prop in Hv as [Hn Hp].
    apply bool_decide_eq_true in Hn, Hp. split; [apply list_elem_of_here|done].
  - intros (? & ? & ?)%IH. split; [by apply list_elem_of_further|done].
Qed.

Lemma find_user_None name pw users :
  Auth.find_user name pw users = None →
  ∀ u, u ∈ users → ¬ (Auth.username u = name ∧ Auth.password u = pw).
Proof.
  induction users as [|v users IH]; simpl.
  - by intros _ u ?%elem_of_nil.
  - destruct (bool_decide (Auth.username v = name)
              && bool_decide (Auth.password v = pw)) eqn:Hv; [done|].
    intros Hnone u [->|Hu]%elem_of_cons; [|by apply IH].
    intros [Hn Hp]. by rewrite !bool_decide_eq_true_2 in Hv.
Qed.

Lemma user_matches_true u name pw :
  Auth.username u = name ∧ Auth.password u = pw →
  bool_decide (Auth.username u = name) && bool_decide (Auth.password u = pw)
  = true.
Proof. intros [Hn Hp]. by rewrite !bool_decide_eq_true_2. Qed.

Lemma user_matches_false u name pw :
  ¬ (Auth.username u = name ∧ Auth.password u = pw) →
  bool_decide (Auth.username u = name) && bool_decide (Auth.password u = pw)
  = false.
Proof.
  intros H. apply not_true_is_false.
  intros [Hn%bool_decide_eq_true Hp%bool_decide_eq_true]%andb_prop. auto.
Qed.

(** Every user of [load_users] is filed under its own id. *)
Lemma load_user_of_loaded environ st u :
  u ∈ (Auth.load_users environ).*2 →
  Auth.load_user (Auth.id u) (Auth.refresh_users environ st) = Some u.
Proof.
  unfold Auth.load_users. simpl.
  rewrite !elem_of_cons, elem_of_nil. by intros [->|[->|[]]].
Qed.

(** What a redirect from [login] tells. *)
Lemma login_redirect environ req st ep st' :
  Auth.login environ req st = (Auth.RedirectTo ep, st') →
  ∃ found,
    ep = "pratiche" ∧ method req = POST
    ∧ found ∈ (Auth.load_users environ).*2
    ∧ Auth.username found
      = Py.strip (Py.or_empty (Py.get "username" (form req)))
    ∧ Auth.password found = Py.or_empty (Py.get "password" (form req))
    ∧ st' = Auth.login_user found (Auth.refresh_users environ st).
Proof.
  unfold Auth.login. destruct (method req); [done|].
  destruct (Auth.find_user _ _ _) as [found|] eqn:Hf; [|done].
  intros [= <- <-]. apply find_user_Some in Hf as (Hin & Hn & Hp).
  by exists found.
Qed.

End login.

(** X5.  When [login] answers with a redirect, the request was a POST, the
    redirect goes to the list, and the user flask-login then loads as
    [current_user] is one of the users configured in the environment at
    that moment, with the stripped name and the password as typed of the
    form; nothing is flashed. *)
Theorem login_redirect_sets_current_user
    (environ : gmap string string) (req : request) (st st' : Auth.state)
    (ep : string)
    (Hlogin : Auth.login environ req st = (Auth.RedirectTo ep, st')) :
  ep = "pratiche" ∧ method req = POST
  ∧ ∃ found,
      Auth.current_user st' = Some found
      ∧ found ∈ (Auth.load_users environ).*2
      ∧ Auth.username found
        = Py.strip (Py.or_empty (Py.get "username" (form req)))
      ∧ Auth.password found = Py.or_empty (Py.get "password" (form req))
      ∧ Auth.flashes st' = Auth.flashes st.
Proof.
  apply login_redirect in Hlogin as (found & -> & Hpost & Hin & Hn & Hp & ->).
  split; [done|]. split; [done|]. exists found.
  split; [|done].
  unfold Auth.current_user. cbn [Auth.session_user_id Auth.login_user].
  by apply (load_user_of_loaded environ st).
Qed.

Lemma login_redirect_sets_current_user_witness :
  ∃ found,
    Auth.current_user
      (Auth.login ∅
         (mkRequest POST [] [("username", " admin" +:+ Sample.nbsp); ("password", "admin")])
         (Auth.init ∅)).2 = Some found
    ∧ Auth.username found = "admin".
Proof.
  destruct (login_redirect_sets_current_user ∅
    (mkRequest POST [] [("username", " admin" +:+ Sample.nbsp); ("password", "admin")])
    (Auth.init ∅)
    (Auth.login ∅
       (mkRequest POST [] [("username", " admin" +:+ Sample.nbsp); ("password", "admin")])
       (Auth.init ∅)).2 "pratiche")
    as (_ & _ & found & Hc & _ & Hn & _).
  - reflexivity.
  - exists found. split; [exact Hc | exact Hn].
Defined.

(** X6.  A POST to [login] is answered with the redirect exactly when the
    stripped name and the password of the form are those of user 1 or of
    user 2 as the environment configures them (admin/admin and
    collab/collab when it does not); when both would do, user 1 is logged
    in.  Otherwise the login page comes back with the message that the
    credentials are not valid, and whoever was logged in stays so. *)
Theorem login_accepts_configured_users
    (environ : gmap string string) (req : request) (st : Auth.state)
    (Hpost : method req = POST) :
  let name := Py.strip (Py.or_empty (Py.get "username" (form req))) in
  let pw := Py.or_empty (Py.get "password" (form req)) in
  let user1 := Auth.mkUser "1" (environ_get environ "USER1_USERNAME" "admin")
                 (environ_get environ "USER1_PASSWORD" "admin") in
  let user2 := Auth.mkUser "2" (environ_get environ "USER2_USERNAME" "collab")
                 (environ_get environ "USER2_PASSWORD" "collab") in
  let matches (u : Auth.User) := Auth.username u = name ∧ Auth.password u = pw in
  (matches user1 →
     Auth.login environ req st
     = (Auth.RedirectTo "pratiche",
        Auth.login_user user1 (Auth.refresh_users environ st)))
  ∧ (¬ matches user1 → matches user2 →
     Auth.login environ req st
     = (Auth.RedirectTo "pratiche",
        Auth.login_user user2 (Auth.refresh_users environ st)))
  ∧ (¬ matches user1 → ¬ matches user2 →
     Auth.login environ req st
     = (Auth.LoginPage,
        Auth.flash "Credenziali non valide." "error"
          (Auth.refresh_users environ st))
     ∧ Auth.session_user_id (Auth.login environ req st).2
       = Auth.session_user_id st).
Proof.
  intros name pw user1 user2 matches.
  assert (Auth.login environ req st
          = match Auth.find_user name pw [user1; user2] with
            | Some found =>
                (Auth.RedirectTo "pratiche",
                 Auth.login_user found (Auth.refresh_users environ st))
            | None =>
                (Auth.LoginPage,
                 Auth.flash "Credenziali non valide." "error"
                   (Auth.refresh_users environ st))
            end) as ->.
  { unfold Auth.login. by rewrite Hpost. }
  cbn [Auth.find_user].
  split; [|split].
  - intros H1. by rewrite (user_matches_true _ _ _ H1).
  - intros H1 H2.
    by rewrite (user_matches_false _ _ _ H1), (user_matches_true _ _ _ H2).
  - intros H1 H2.
    by rewrite (user_matches_false _ _ _ H1), (user_matches_false _ _ _ H2).
Qed.

Lemma login_accepts_configured_users_witness :
  Auth.login {[ "USER2_PASSWORD" := "s3cret" ]}
    (mkRequest POST [] [("username", "collab"); ("password", "s3cret")])
    (Auth.init ∅)
  = (Auth.RedirectTo "pratiche",
     Auth.login_user (Auth.mkUser "2" "collab" "s3cret")
       (Auth.refresh_users {[ "USER2_PASSWORD" := "s3cret" ]} (Auth.init ∅))).
Proof.
  destruct (login_accepts_configured_users {[ "USER2_PASSWORD" := "s3cret" ]}
    (mkRequest POST [] [("username", "collab"); ("password", "s3cret")])
    (Auth.init ∅)) as (_ & H2 & _); [reflexivity|].
  apply H2.
  - intros [H _]. vm_compute in H. discriminate H.
  - split; reflexivity.
Defined.

(** X7.  A user whose configured name has white space at either end can
    not log in: the name of the form is stripped before it is compared,
    the configured one is not. *)
Theorem padded_username_never_logs_in
    (environ : gmap string string) (req : request) (st st' : Auth.state)
    (ep : string) (u : Auth.User)
    (Hpad : Py.strip (Auth.username u) ≠ Auth.username u)
    (Hlogin : Auth.login environ req st = (Auth.RedirectTo ep, st')) :
  Auth.current_user st' ≠ Some u.
Proof.
  apply login_redirect in Hlogin as (found & _ & _ & Hin & Hn & _ & ->).
  change (Auth.load_user (Auth.id found) (Auth.refresh_users environ st)
          ≠ Some u).
  rewrite (load_user_of_loaded environ st found Hin).
  intros [= ->]. apply Hpad. rewrite Hn. apply strip_idemp.
Qed.

Lemma padded_username_never_logs_in_witness :
  Auth.current_user
    (Auth.login {[ "USER1_USERNAME" := "collab" +:+ Sample.nbsp ]}
       (mkRequest POST []
          [("username", "collab" +:+ Sample.nbsp); ("password", "collab")])
       (Auth.init ∅)).2
  ≠ Some (Auth.mkUser "1" ("collab" +:+ Sample.nbsp) "admin").
Proof.
  apply (padded_username_never_logs_in
    {[ "USER1_USERNAME" := "collab" +:+ Sample.nbsp ]}
    (mkRequest POST []
       [("username", "collab" +:+ Sample.nbsp); ("password", "collab")])
    (Auth.init ∅) _ "pratiche").
  - vm_compute. discriminate.
  - apply result_of_page; vm_compute; reflexivity.
Defined.

(* ===================================================================== *)
(** ** What writing does and does not touch *)
(* ===================================================================== *)

Section writes.

Implicit Types (e : env) (req : request) (st : state) (p : Practice).

Lemma next_id_above (t : gmap Z Practice) k p :
  t !! k = Some p → k < next_id t.
Proof.
  intros Hp. unfold next_id.
  assert (k ≤ foldr Z.max 0 (map_to_list t).*1); [|lia].
  apply foldr_max_ge, list_elem_of_fmap.
  exists (k, p). split; [done|]. by apply elem_of_map_to_list.
Qed.

Lemma pratica_elimina_found pid st old :
  keyed st → query_get pid st = Some old →
  pratica_elimina pid st
  = (Redirect "pratiche" (stato old),
     flash "Pratica eliminata." "ok"
       (mkState (delete pid (pratiche_table st)) (flashes st))).
Proof.
  intros Hk Hold. unfold pratica_elimina, delete_row.
  by rewrite Hold, (Hk pid old Hold).
Qed.

Lemma pratica_elimina_no_redirect pid st :
  succeeded (pratica_elimina pid st).1 = false →
  pratiche_table (pratica_elimina pid st).2 = pratiche_table st.
Proof. unfold pratica_elimina. by destruct (query_get pid st). Qed.

End writes.

(** X8.  A successful create leaves every row that was stored as it was:
    the new row gets a positive key, larger than every key in use, and the
    table has one row more. *)
Theorem pratica_nuova_adds_one_row
    (e : env) (req : request) (st st' : state) (s : string)
    (Hn : pratica_nuova e req st = (Redirect "pratiche" s, st')) :
  0 < next_id (pratiche_table st)
  ∧ query_get (next_id (pratiche_table st)) st = None
  ∧ is_Some (query_get (next_id (pratiche_table st)) st')
  ∧ (∀ k p, query_get k st = Some p →
       k < next_id (pratiche_table st) ∧ query_get k st' = Some p)
  ∧ size (pratiche_table st') = S (size (pratiche_table st)).
Proof.
  pose proof Hn as (u & p & _ & _ & _ & _ & _ & _ & -> & Hid & _)
    %pratica_nuova_redirect.
  apply pratica_nuova_stored in Hn as (_ & q & _ & Hfresh & Hq & Hframe & _).
  split; [apply next_id_positive|]. split; [done|]. split; [by eexists|].
  split.
  - intros k r Hr. pose proof (next_id_above _ _ _ Hr) as Hlt.
    split; [done|]. rewrite Hframe; [done|lia].
  - unfold flash, insert_row. cbn [pratiche_table]. rewrite Hid.
    by apply map_size_insert_None.
Qed.

Lemma pratica_nuova_adds_one_row_witness :
  size (pratiche_table
          (pratica_nuova Sample.e1 (Sample.post "Delta" "Atto" "" "")
             Sample.st3).2)
  = S (size (pratiche_table Sample.st3)).
Proof.
  refine (proj2 (proj2 (proj2 (proj2
    (pratica_nuova_adds_one_row Sample.e1 (Sample.post "Delta" "Atto" "" "")
       Sample.st3 _ "NUOVA" _))))).
  run_handler.
Defined.

(** X9.  Once a row is deleted it is gone: deleting it again or editing
    it answers 404 and changes nothing, and no listing shows a row with
    its id. *)
Theorem deleted_row_is_gone
    (pid : Z) (st : state) (old : Practice)
    (Hk : keyed st) (Hold : query_get pid st = Some old) :
  pratica_elimina pid (pratica_elimina pid st).2
  = (NotFound, (pratica_elimina pid st).2)
  ∧ (∀ e req, pratica_modifica e pid req (pratica_elimina pid st).2
              = (NotFound, (pratica_elimina pid st).2))
  ∧ ∀ req p, p ∈ api_items req (pratica_elimina pid st).2 → id p ≠ pid.
Proof.
  rewrite (pratica_elimina_found _ _ _ Hk Hold). cbn [snd].
  assert (query_get pid
    (flash "Pratica eliminata." "ok"
       (mkState (delete pid (pratiche_table st)) (flashes st))) = None)
    as Hgone by apply lookup_delete_eq.
  split; [|split].
  - unfold pratica_elimina. by rewrite Hgone.
  - intros e req. unfold pratica_modifica. by rewrite Hgone.
  - intros req p [[k Hp] _]%query_filter_by_stato_elem Hid.
    unfold query_get, flash in Hp. cbn [pratiche_table] in Hp.
    apply lookup_delete_Some in Hp as [Hne Hp].
    apply Hne. rewrite <- Hid. by apply (Hk k p).
Qed.

Lemma deleted_row_is_gone_witness :
  pratica_elimina 2 (pratica_elimina 2 Sample.st3).2
  = (NotFound, (pratica_elimina 2 Sample.st3).2).
Proof.
  destruct (query_get 2 Sample.st3) as [old|] eqn:Hold.
  - exact (proj1 (deleted_row_is_gone 2 Sample.st3 old sample_st3_keyed Hold)).
  - vm_compute in Hold. discriminate Hold.
Defined.

(** X10.  A handler that does not answer with a redirect has not written:
    after the form with an error, a 404, a plain GET or a failure, the
    table is what it was. *)
Theorem no_redirect_no_write (e : env) (pid : Z) (req : request) (st : state) :
  (succeeded (pratica_nuova e req st).1 = false →
     pratiche_table (pratica_nuova e req st).2 = pratiche_table st)
  ∧ (succeeded (pratica_modifica e pid req st).1 = false →
     pratiche_table (pratica_modifica e pid req st).2 = pratiche_table st)
  ∧ (succeeded (pratica_elimina pid st).1 = false →
     pratiche_table (pratica_elimina pid st).2 = pratiche_table st)
  ∧ pratiche_table (api_pratiche req st).2 = pratiche_table st.
Proof.
  split; [apply pratica_nuova_no_redirect|].
  split; [apply pratica_modifica_no_redirect|].
  split; [apply pratica_elimina_no_redirect|done].
Qed.

(* ===================================================================== *)
(** ** What is stored is stripped and filled in *)
(* ===================================================================== *)

Section filled.

Implicit Types (e : env) (req : request) (st : state) (p : Practice).

Lemma form_cliente_stripped req : Py.strip (form_cliente req) = form_cliente req.
Proof. apply strip_idemp. Qed.

Lemma form_oggetto_stripped req : Py.strip (form_oggetto req) = form_oggetto req.
Proof. apply strip_idemp. Qed.

Lemma form_note_stripped req : Py.strip (form_note req) = form_note req.
Proof. apply strip_idemp. Qed.

Lemma pratica_nuova_rows_filled e req st :
  rows_filled st → rows_filled (pratica_nuova e req st).2.
Proof.
  intros Hok.
  destruct (redirect_or_not (pratica_nuova e req st).1) as [(ep & s & Hr)|Hr].
  - destruct (pratica_nuova e req st) as [r st'] eqn:Heq. simpl in *. subst r.
    apply pratica_nuova_redirect in Heq
      as (u & p & _ & _ & _ & _ & _ & _ & -> & Hid & Hcl & Hog & _ & _ & _
          & Hno & _ & Hub & _ & Hcb).
    unfold rows_filled, flash, insert_row. cbn [pratiche_table].
    apply map_Forall_insert_2; [|done].
    split.
    + rewrite Hid. apply next_id_positive.
    + rewrite Hcl. apply form_cliente_stripped.
    + rewrite Hog. apply form_oggetto_stripped.
    + exists (form_note req). split; [done|apply form_note_stripped].
    + by rewrite Hcb.
    + by rewrite Hub.
  - unfold rows_filled. by rewrite pratica_nuova_no_redirect.
Qed.

Lemma pratica_modifica_rows_filled e pid req st :
  keyed st → rows_filled st → rows_filled (pratica_modifica e pid req st).2.
Proof.
  intros Hk Hok.
  destruct (redirect_or_not (pratica_modifica e pid req st).1)
    as [(ep & s & Hr)|Hr].
  - destruct (pratica_modifica e pid req st) as [r st'] eqn:Heq.
    simpl in *. subst r.
    apply pratica_modifica_redirect in Heq
      as (u & old & Hq & _ & _ & _ & _ & _ & _ & ->).
    destruct (Hok _ _ Hq) as [Hpos _ _ _ Hcb _].
    destruct (modified_fields e req u old)
      as (Hid & Hcl & Hog & _ & _ & _ & Hno & _ & Hub & _ & Hcb').
    unfold rows_filled, flash, update_row. cbn [pratiche_table].
    apply map_Forall_insert_2; [|done].
    split.
    + by rewrite Hid, (Hk _ _ Hq).
    + rewrite Hcl. apply form_cliente_stripped.
    + rewrite Hog. apply form_oggetto_stripped.
    + exists (form_note req). split; [done|apply form_note_stripped].
    + by rewrite Hcb'.
    + by rewrite Hub.
  - unfold rows_filled. by rewrite pratica_modifica_no_redirect.
Qed.

Lemma pratica_elimina_rows_filled pid st :
  rows_filled st → rows_filled (pratica_elimina pid st).2.
Proof.
  intros Hok. unfold pratica_elimina.
  destruct (query_get pid st) as [p|]; [|done].
  unfold rows_filled, flash, delete_row. cbn [pratiche_table snd].
  by apply map_Forall_delete.
Qed.

Lemma reachable_rows_filled st : reachable st → rows_filled st.
Proof.
  unfold reachable. revert st.
  apply (rtc_ind_r (λ st, rows_filled st) init).
  - unfold rows_filled, init. cbn. apply map_Forall_empty.
  - intros st1 st2 Hreach Hstep IH.
    pose proof (reachable_keyed st1 Hreach) as Hk.
    destruct Hstep; auto using pratica_nuova_rows_filled,
      pratica_modifica_rows_filled, pratica_elimina_rows_filled.
Qed.

End filled.

(** X11.  In every state the application reaches, a stored row has a
    positive key equal to its [id]; its client and subject are not empty
    and carry no white space at either end; its note is a text, stripped
    as well; and [created_by] and [updated_by] are set. *)
Theorem stored_rows_are_stripped_and_filled
    (st : state) (k : Z) (p : Practice)
    (Hreach : reachable st) (Hp : query_get k st = Some p) :
  0 < k ∧ id p = k
  ∧ cliente p ≠ "" ∧ Py.strip (cliente p) = cliente p
  ∧ oggetto p ≠ "" ∧ Py.strip (oggetto p) = oggetto p
  ∧ (∃ n, note p = Some n ∧ Py.strip n = n)
  ∧ is_Some (created_by p) ∧ is_Some (updated_by p).
Proof.
  destruct (reachable_rows_ok st Hreach k p Hp) as [Hid _ Hc Ho _].
  destruct (reachable_rows_filled st Hreach k p Hp) as [? ? ? ? ? ?].
  split; [done|]. split; [done|].
  split; [by destruct (cliente p)|]. split; [done|].
  split; [by destruct (oggetto p)|]. done.
Qed.

Lemma stored_rows_are_stripped_and_filled_witness :
  ∃ p, query_get 1 Sample.st3 = Some p
    ∧ cliente p ≠ "" ∧ Py.strip (cliente p) = cliente p.
Proof.
  destruct (query_get 1 Sample.st3) as [p|] eqn:Hp.
  - exists p. split; [reflexivity|].
    destruct (stored_rows_are_stripped_and_filled Sample.st3 1 p
      sample_st3_reachable Hp) as (_ & _ & Hne & Hs & _).
    split; [exact Hne | exact Hs].
  - vm_compute in Hp. discriminate Hp.
Defined.

(* ===================================================================== *)
(** ** The three lists *)
(* ===================================================================== *)

Section lists.

Implicit Types (e : env) (req : request) (st : state) (p : Practice).

Lemma get_with_stato_valid s :
  s ∈ STATI →
  api_stato (get_with_stato s) = s
  ∧ Auth.pratiche (get_with_stato s) = Auth.PratichePage s.
Proof. by intros [->|[->| ->]]%STATI_cases. Qed.

Lemma api_items_get_with_stato s st :
  s ∈ STATI → api_items (get_with_stato s) st = query_filter_by_stato s st.
Proof.
  intros Hs. unfold api_items. by rewrite (proj1 (get_with_stato_valid s Hs)).
Qed.

Lemma all_rows_elem st p : p ∈ all_rows st ↔ ∃ k, query_get k st = Some p.
Proof.
  unfold all_rows, query_get. rewrite list_elem_of_fmap. split.
  - intros ([k q] & -> & Hq%elem_of_map_to_list). eauto.
  - intros [k Hk]. exists (k, p). split; [done|]. by apply elem_of_map_to_list.
Qed.

Lemma filter_by_stato_partition (l : list Practice) :
  Forall (λ p, stato p ∈ STATI) l →
  filter (λ p, stato p = "NUOVA") l
    ++ filter (λ p, stato p = "ATTIVA") l
    ++ filter (λ p, stato p = "CHIUSA") l ≡ₚ l.
Proof.
  induction 1 as [|p l Hp _ IH]; [done|].
  rewrite !filter_cons.
  apply STATI_cases in Hp as [Hp|[Hp|Hp]]; rewrite Hp; simpl.
  - by rewrite IH.
  - rewrite <- Permutation_middle. by rewrite IH.
  - rewrite app_assoc, <- Permutation_middle, <- app_assoc. by rewrite IH.
Qed.

(** The row that is later than every other row heads its list. *)
Lemma newest_heads_its_list st k p :
  query_get k st = Some p →
  (∀ k' q, k' ≠ k → query_get k' st = Some q →
     (datetime_key (updated_at q) < datetime_key (updated_at p))%N) →
  head (query_filter_by_stato (stato p) st) = Some p.
Proof.
  intros Hp Hlater.
  pose proof (query_filter_by_stato_sorted (stato p) st) as Hsorted.
  assert (p ∈ query_filter_by_stato (stato p) st) as Hin.
  { apply query_filter_by_stato_elem. eauto. }
  destruct (query_filter_by_stato (stato p) st) as [|h tl] eqn:Hl.
  { by apply elem_of_nil in Hin. }
  simpl. f_equal.
  destruct (decide (h = p)) as [|Hne]; [done|exfalso].
  assert (h ∈ query_filter_by_stato (stato p) st) as Hh.
  { rewrite Hl. apply list_elem_of_here. }
  apply query_filter_by_stato_elem in Hh as [[k' Hk'] _].
  assert (k' ≠ k) as Hkk by congruence.
  specialize (Hlater k' h Hkk Hk').
  apply elem_of_cons in Hin as [Heq|Hin]; [done|].
  apply StronglySorted_inv in Hsorted as [_ Hall].
  rewrite Forall_forall in Hall. specialize (Hall p Hin).
  unfold updated_at_desc in Hall. lia.
Qed.

End lists.

(** X12.  In every state the application reaches, the lists of the three
    statuses together hold every stored row exactly once. *)
Theorem lists_hold_every_row_once (st : state) (Hreach : reachable st) :
  api_items (get_with_stato "NUOVA") st
    ++ api_items (get_with_stato "ATTIVA") st
    ++ api_items (get_with_stato "CHIUSA") st
  ≡ₚ all_rows st.
Proof.
  unfold api_items, query_filter_by_stato.
  rewrite !merge_sort_Permutation.
  apply filter_by_stato_partition.
  apply Forall_forall. intros p [k Hp]%all_rows_elem.
  by destruct (reachable_rows_ok st Hreach k p Hp).
Qed.

Lemma lists_hold_every_row_once_witness :
  api_items (get_with_stato "NUOVA") Sample.st3
    ++ api_items (get_with_stato "ATTIVA") Sample.st3
    ++ api_items (get_with_stato "CHIUSA") Sample.st3
  ≡ₚ all_rows Sample.st3.
Proof. exact (lists_hold_every_row_once Sample.st3 sample_st3_reachable). Defined.

(** X14.  The redirect after a successful create or update leads to the
    list that shows the row just written: the page [pratiche] takes the
    status of the redirect as it is, and the listing for that status holds
    the row. *)
Theorem redirect_leads_to_the_row
    (e : env) (req : request) (st : state) (Hreach : reachable st) :
  (∀ s st', pratica_nuova e req st = (Redirect "pratiche" s, st') →
     Auth.pratiche (get_with_stato s) = Auth.PratichePage s
     ∧ ∃ p, query_get (next_id (pratiche_table st)) st' = Some p
         ∧ p ∈ api_items (get_with_stato s) st')
  ∧ (∀ pid s st', pratica_modifica e pid req st = (Redirect "pratiche" s, st') →
     Auth.pratiche (get_with_stato s) = Auth.PratichePage s
     ∧ ∃ p, query_get pid st' = Some p
         ∧ p ∈ api_items (get_with_stato s) st').
Proof.
  pose proof (reachable_rows_ok st Hreach) as Hok.
  split.
  - intros s st' (u & p & _ & _ & Hp & _ & _ & _ & _ & Hs & -> & _)
      %pratica_nuova_stored.
    pose proof (nuova_stato_valid req) as Hv.
    split; [by apply get_with_stato_valid|].
    exists p. split; [done|].
    rewrite api_items_get_with_stato by done.
    apply query_filter_by_stato_elem. eauto.
  - intros pid s st' Hm.
    destruct (pratica_modifica_effect _ _ _ _ _ _ (rows_ok_keyed _ Hok) Hm)
      as (u & old & p & Hold & Hp & _ & _ & _ & _ & _ & _ & Hs & _).
    apply pratica_modifica_redirect in Hm
      as (_ & old' & Hold' & _ & _ & _ & _ & _ & -> & _).
    assert (old' = old) as -> by congruence.
    assert (modifica_stato old req ∈ STATI) as Hv.
    { apply modifica_stato_valid. by destruct (Hok pid old Hold). }
    split; [by apply get_with_stato_valid|].
    exists p. split; [done|].
    rewrite api_items_get_with_stato by done.
    apply query_filter_by_stato_elem. eauto.
Qed.

Lemma redirect_leads_to_the_row_witness :
  ∃ p, query_get 2
         (pratica_modifica Sample.e3 2 (Sample.post "Beta" "Parere" "nuova" "")
            Sample.st3).2 = Some p
    ∧ p ∈ api_items (get_with_stato "NUOVA")
            (pratica_modifica Sample.e3 2
               (Sample.post "Beta" "Parere" "nuova" "") Sample.st3).2.
Proof.
  destruct (redirect_leads_to_the_row Sample.e3
    (Sample.post "Beta" "Parere" "nuova" "") Sample.st3 sample_st3_reachable)
    as [_ H].
  refine (proj2 (H 2 "NUOVA" _ _)). run_handler.
Defined.

(** X15.  When a create or an update is made at a time later than the
    [updated_at] of every stored row, the row written is the first of the
    list of its status. *)
Theorem latest_write_heads_its_list
    (e : env) (req : request) (st : state) (Hreach : reachable st)
    (Hlater : ∀ k q, query_get k st = Some q →
       (datetime_key (updated_at q) < datetime_key (utcnow e))%N) :
  (∀ s st', pratica_nuova e req st = (Redirect "pratiche" s, st') →
     ∃ p, query_get (next_id (pratiche_table st)) st' = Some p
       ∧ head (api_items (get_with_stato s) st') = Some p)
  ∧ (∀ pid s st', pratica_modifica e pid req st = (Redirect "pratiche" s, st') →
     ∃ p, query_get pid st' = Some p
       ∧ head (api_items (get_with_stato s) st') = Some p).
Proof.
  pose proof (reachable_rows_ok st Hreach) as Hok.
  split.
  - intros s st' (u & p & _ & _ & Hp & Hframe & _ & _ & _ & Hs & -> & _ & _
                  & _ & Hupd & _)%pratica_nuova_stored.
    exists p. split; [done|].
    rewrite api_items_get_with_stato by apply nuova_stato_valid.
    rewrite <- Hs. apply (newest_heads_its_list _ _ _ Hp).
    intros k' q Hne Hq. rewrite Hupd. apply (Hlater k' q).
    by rewrite <- Hframe.
  - intros pid s st' Hm.
    destruct (pratica_modifica_effect _ _ _ _ _ _ (rows_ok_keyed _ Hok) Hm)
      as (u & old & p & Hold & Hp & Hframe & _ & _ & _ & _ & _ & Hs & _ & _
          & _ & Hupd & _).
    apply pratica_modifica_redirect in Hm
      as (_ & old' & Hold' & _ & _ & _ & _ & _ & Hs' & _).
    assert (old' = old) as -> by congruence.
    exists p. split; [done|].
    rewrite api_items_get_with_stato.
    2:{ rewrite Hs'. apply modifica_stato_valid.
        by destruct (Hok pid old Hold). }
    rewrite <- Hs. apply (newest_heads_its_list _ _ _ Hp).
    intros k' q Hne Hq. rewrite Hupd. apply (Hlater k' q).
    by rewrite <- Hframe.
Qed.

Lemma sample_e4_is_later k q :
  query_get k Sample.st3 = Some q →
  (datetime_key (updated_at q) < datetime_key (utcnow Sample.e4))%N.
Proof.
  revert k q.
  change (map_Forall
    (λ _ q, (datetime_key (updated_at q) < datetime_key (utcnow Sample.e4))%N)
    (pratiche_table Sample.st3)).
  apply (bool_decide_unpack _). by vm_compute.
Qed.

Lemma latest_write_heads_its_list_witness :
  ∃ p, query_get 1
         (pratica_modifica Sample.e4 1 (Sample.post "Acme" "Contratto" "attiva" "")
            Sample.st3).2 = Some p
    ∧ head (api_items (get_with_stato "ATTIVA")
              (pratica_modifica Sample.e4 1
                 (Sample.post "Acme" "Contratto" "attiva" "") Sample.st3).2)
      = Some p.
Proof.
  destruct (latest_write_heads_its_list Sample.e4
    (Sample.post "Acme" "Contratto" "attiva" "") Sample.st3
    sample_st3_reachable sample_e4_is_later) as [_ H].
  refine (H 1 "ATTIVA" _ _). run_handler.
Defined.

(* ===================================================================== *)
(** ** Editing again *)
(* ===================================================================== *)

Section again.

Implicit Types (e : env) (req : request) (st : state) (p q : Practice).

Lemma Practice_ext p q :
  id p = id q → cliente p = cliente q → oggetto p = oggetto q →
  stato p = stato q → data_apertura p = data_apertura q →
  data_chiusura p = data_chiusura q → note p = note q →
  updated_at p = updated_at q → updated_by p = updated_by q →
  created_at p = created_at q → created_by p = created_by q →
  p = q.
Proof. destruct p, q; simpl; intros; by subst. Qed.

(** A POST that passes the checks, in one equation. *)
Lemma pratica_modifica_post e pid req st old username :
  query_get pid st = Some old →
  method req = POST →
  Py.truthy (form_cliente req) = true →
  Py.truthy (form_oggetto req) = true →
  current_user e = Some username →
  pratica_modifica e pid req st
  = (Redirect "pratiche" (modifica_stato old req),
     flash "Pratica aggiornata." "ok"
       (update_row (modified e req username old) st)).
Proof.
  intros Hq Hm Hc Ho Hu. unfold pratica_modifica.
  by rewrite Hq, Hm, Hc, Ho, Hu.
Qed.

(** The status an update gives is the status the same update gives
    again. *)
Lemma modifica_stato_again p q req :
  stato q = modifica_stato p req →
  modifica_stato q req = modifica_stato p req.
Proof.
  unfold modifica_stato, Py.or_else.
  destruct (Py.get "stato" (form req)) as [[|c v]|]; simpl.
  - destruct (stato_valido (Py.upper (stato p))) eqn:Hv; simpl; intros H;
      rewrite H.
    + apply stato_valido_elem in Hv as Hin.
      by rewrite (upper_STATI _ Hin), Hv.
    + by rewrite Hv.
  - destruct (stato_valido _); simpl; intros H; by rewrite ?H.
  - destruct (stato_valido (Py.upper (stato p))) eqn:Hv; simpl; intros H;
      rewrite H.
    + apply stato_valido_elem in Hv as Hin.
      by rewrite (upper_STATI _ Hin), Hv.
    + by rewrite Hv.
Qed.

Lemma modified_again e req username p :
  modified e req username (modified e req username p)
  = modified e req username p.
Proof.
  destruct (modified_fields e req username p)
    as (H1 & H2 & H3 & H4 & H5 & H6 & H7 & H8 & H9 & H10 & H11).
  destruct (modified_fields e req username (modified e req username p))
    as (G1 & G2 & G3 & G4 & G5 & G6 & G7 & G8 & G9 & G10 & G11).
  pose proof (modifica_stato_again p _ req H4) as Hs.
  apply Practice_ext; try congruence.
  rewrite G6, Hs, H6.
  destruct (decide (modifica_stato p req = "CHIUSA")); [|done].
  by destruct (data_chiusura p).
Qed.

End again.

(** X16.  Sending the form of a successful update once more, at the same
    time and by the same user, succeeds again with the same redirect and
    leaves the table as the first update left it; only the message is
    flashed once more. *)
Theorem pratica_modifica_twice
    (e : env) (pid : Z) (req : request) (st st1 : state) (s : string)
    (Hk : keyed st)
    (Hm : pratica_modifica e pid req st = (Redirect "pratiche" s, st1)) :
  pratica_modifica e pid req st1
  = (Redirect "pratiche" s, flash "Pratica aggiornata." "ok" st1).
Proof.
  pose proof (pratica_modifica_lookup _ _ _ _ _ _ Hk Hm)
    as (u & old & Hold & Hu & _ & Hq & _).
  apply pratica_modifica_redirect in Hm
    as (u' & old' & Hold' & Hpost & Hu' & Hc & Ho & _ & -> & ->).
  assert (old' = old) as -> by congruence.
  assert (u' = u) as -> by congruence.
  rewrite (pratica_modifica_post e pid req _ _ u Hq Hpost Hc Ho Hu).
  destruct (modified_fields e req u old) as (Hid & _ & _ & Hs & _).
  rewrite (modifica_stato_again old _ req Hs), modified_again.
  do 2 f_equal.
  unfold update_row, flash. cbn [pratiche_table flashes].
  by rewrite insert_insert_eq.
Qed.

Lemma pratica_modifica_twice_witness :
  pratiche_table
    (pratica_modifica Sample.e4 3 (Sample.post "Gamma" "Ricorso" "chiusa" "x")
       (pratica_modifica Sample.e4 3
          (Sample.post "Gamma" "Ricorso" "chiusa" "x") Sample.st3).2).2
  = pratiche_table
      (pratica_modifica Sample.e4 3
         (Sample.post "Gamma" "Ricorso" "chiusa" "x") Sample.st3).2.
Proof.
  rewrite (pratica_modifica_twice Sample.e4 3
    (Sample.post "Gamma" "Ricorso" "chiusa" "x") Sample.st3
    (pratica_modifica Sample.e4 3
       (Sample.post "Gamma" "Ricorso" "chiusa" "x") Sample.st3).2
    "CHIUSA" sample_st3_keyed).
  - reflexivity.
  - run_handler.
Defined.

(** X17.  A create or update whose note field is missing, empty or only
    white space stores the empty note: an update does not keep the note
    the row had. *)
Theorem blank_note_is_stored_empty
    (e : env) (req : request) (st : state)
    (Hk : keyed st)
    (Hblank : blank (Py.get "note" (form req)) = true) :
  (∀ s st', pratica_nuova e req st = (Redirect "pratiche" s, st') →
     ∃ p, query_get (next_id (pratiche_table st)) st' = Some p
       ∧ note p = Some "")
  ∧ (∀ pid s st', pratica_modifica e pid req st = (Redirect "pratiche" s, st') →
     ∃ p, query_get pid st' = Some p ∧ note p = Some "").
Proof.
  assert (form_note req = "") as Hnote by apply (strip_blank _ Hblank).
  split.
  - intros s st' (u & p & _ & _ & Hp & _ & _ & _ & _ & _ & _ & _ & _ & Hn & _)
      %pratica_nuova_stored.
    exists p. by rewrite Hn, Hnote.
  - intros pid s st' Hm.
    destruct (pratica_modifica_effect _ _ _ _ _ _ Hk Hm)
      as (u & old & p & _ & Hp & _ & _ & _ & _ & _ & _ & _ & _ & _ & Hn & _).
    exists p. by rewrite Hn, Hnote.
Qed.

Lemma blank_note_is_stored_empty_witness :
  ∃ p, query_get 2
         (pratica_modifica Sample.e4 2 (Sample.post "Beta" "Parere" "" (" " +:+ Sample.nbsp))
            Sample.st3).2 = Some p
    ∧ note p = Some "".
Proof.
  destruct (blank_note_is_stored_empty Sample.e4
    (Sample.post "Beta" "Parere" "" (" " +:+ Sample.nbsp)) Sample.st3 sample_st3_keyed)
    as [_ H]; [reflexivity|].
  refine (H 2 "CHIUSA" _ _). run_handler.
Defined.

(** X18.  A row created with status CHIUSA gets its closing date from the
    first successful update that leaves it CHIUSA: the date is the day of
    that update, whatever the day of the create. *)
Theorem created_closed_is_dated_by_next_update
    (e1 e2 : env) (req1 req2 : request) (st st1 st2 : state)
    (Hk : keyed st)
    (Hn : pratica_nuova e1 req1 st = (Redirect "pratiche" "CHIUSA", st1))
    (Hm : pratica_modifica e2 (next_id (pratiche_table st)) req2 st1
          = (Redirect "pratiche" "CHIUSA", st2)) :
  ∃ p1 p2,
    query_get (next_id (pratiche_table st)) st1 = Some p1
    ∧ data_chiusura p1 = None
    ∧ query_get (next_id (pratiche_table st)) st2 = Some p2
    ∧ stato p2 = "CHIUSA"
    ∧ data_chiusura p2 = Some (today e2).
Proof.
  assert (keyed st1) as Hk1.
  { pose proof Hn as (u & p & _ & _ & _ & _ & _ & _ & -> & Hid & _)
      %pratica_nuova_redirect.
    unfold keyed, flash, insert_row. cbn [pratiche_table].
    by apply map_Forall_insert_2. }
  apply pratica_nuova_stored in Hn
    as (u & p1 & _ & _ & Hp1 & _ & _ & _ & _ & _ & _ & _ & Hd1 & _).
  destruct (pratica_modifica_effect _ _ _ _ _ _ Hk1 Hm)
    as (u2 & old & p2 & Hold & Hp2 & _ & _ & _ & _ & _ & _ & Hs & _ & Hd2 & _).
  assert (old = p1) as -> by congruence.
  exists p1, p2. rewrite Hd2, Hd1. done.
Qed.

Lemma created_closed_is_dated_by_next_update_witness :
  ∃ p2,
    query_get 4
      (pratica_modifica Sample.e4 4 (Sample.post "Delta" "Atto" "" "")
         (pratica_nuova Sample.e1 (Sample.post "Delta" "Atto" "chiusa" "")
            Sample.st3).2).2 = Some p2
    ∧ data_chiusura p2 = Some (Date 2024 6 1).
Proof.
  destruct (created_closed_is_dated_by_next_update Sample.e1 Sample.e4
    (Sample.post "Delta" "Atto" "chiusa" "") (Sample.post "Delta" "Atto" "" "")
    Sample.st3
    (pratica_nuova Sample.e1 (Sample.post "Delta" "Atto" "chiusa" "")
       Sample.st3).2
    (pratica_modifica Sample.e4 4 (Sample.post "Delta" "Atto" "" "")
       (pratica_nuova Sample.e1 (Sample.post "Delta" "Atto" "chiusa" "")
          Sample.st3).2).2
    sample_st3_keyed) as (p1 & p2 & _ & _ & Hp2 & _ & Hd).
  - run_handler.
  - run_handler.
  - exists p2. split; [exact Hp2 | exact Hd].
Defined.

(* ===================================================================== *)
(** ** The JSON answer *)
(* ===================================================================== *)

(** X19.  In every state the application reaches, each object of the JSON
    answer of [api_pratiche] carries the requested status, and in the
    lists of NUOVA and ATTIVA its closing date is null. *)
Theorem api_pratiche_objects
    (req : request) (st : state) (d : list (string * json))
    (Hreach : reachable st) (Hd : d ∈ to_dict <$> api_items req st) :
  (api_pratiche req st).1 = Jsonify (to_dict <$> api_items req st)
  ∧ PyStr.dict_get "stato" d = Some (JStr (api_stato req))
  ∧ (api_stato req ≠ "CHIUSA" →
       PyStr.dict_get "data_chiusura" d = Some JNull).
Proof.
  split; [done|].
  apply list_elem_of_fmap in Hd as (p & -> & Hp).
  apply query_filter_by_stato_elem in Hp as [[k Hk] Hs].
  split; [by rewrite <- Hs|].
  intros Hne.
  destruct (reachable_rows_ok st Hreach k p Hk) as [_ _ _ _ Hc].
  destruct (data_chiusura p) as [c|] eqn:Hc'.
  - destruct Hne. rewrite <- Hs. apply Hc. by eexists.
  - unfold to_dict. by rewrite Hc'.
Qed.

Lemma api_pratiche_objects_witness :
  ∃ d, d ∈ to_dict <$> api_items (get_with_stato "nuova") Sample.st3
    ∧ PyStr.dict_get "stato" d = Some (JStr "NUOVA")
    ∧ PyStr.dict_get "data_chiusura" d = Some JNull.
Proof.
  destruct (to_dict <$> api_items (get_with_stato "nuova") Sample.st3)
    as [|d ds] eqn:Hl.
  - vm_compute in Hl. discriminate Hl.
  - assert (d ∈ to_dict <$> api_items (get_with_stato "nuova") Sample.st3)
      as Hin by (rewrite Hl; apply list_elem_of_here).
    exists d. rewrite <- Hl. split; [exact Hin|].
    destruct (api_pratiche_objects (get_with_stato "nuova") Sample.st3 d
      sample_st3_reachable Hin) as (_ & Hs & Hd).
    split; [exact Hs|]. apply Hd. discriminate.
Defined.
